(** * MCP_end_to_end: a Claude command-line client with a web-search tool

    A shallow embedding of the three Python modules of the repository

      - [mcp_integration.py]   (MCPClient.search, handle_claude_tool_call),
      - [claude_mcp_client.py] (ClaudeClient),
      - [ask_claude.py]        (check_mcp_server, main),

    followed by the properties of the tool dispatcher, the conversation
    orchestrator and the front end.

    Modelling conventions.
      - Values that come out of [response.json()] are Python objects built
        from JSON; they are the inductive type [json].  The Python
        operations the code applies to them ([.get], [in], iteration,
        [len], [x[0]], [+], truthiness) are written out with the dynamic
        type errors CPython raises.
      - The outside world (the MCP server, the Claude API, DuckDuckGo) is
        a record of oracles [Env]; an oracle sees the events performed so
        far, so that an answer may depend on the attempt number.
      - Effects are explicit: a computation maps a [World] (the events
        performed so far and the conversation-history list object) to an
        outcome and a new [World].  An outcome is a value, a raised
        exception, or [Exhausted] when the recursion budget of
        [send_message] is used up.
      - [send_message] is the recursion on a call stack without bound,
        [depth] being enough nesting for the run at hand;
        [send_message_limited] is the same body on a call stack with
        room for a given number of nested activations, where the call
        that does not fit raises [RecursionError] as in CPython.
      - Writes to standard output ([print]) are not events; what [main]
        prints last is its result. *)

From Stdlib Require Import String Ascii List ZArith Bool Lia.
Import ListNotations.
Local Open Scope string_scope.
Local Open Scope Z_scope.

(* ------------------------------------------------------------------ *)
(** ** Python objects obtained from JSON *)

#[warnings="-register-all"]
Inductive json : Type :=
| JNull                                   (* None *)
| JBool (b : bool)
| JNum (n : Z)                            (* a number; the code only tests it for zero *)
| JStr (s : string)
| JArr (items : list json)
| JObj (fields : list (string * json)).   (* dict, keys in insertion order *)

(** Exception classes the code can meet.  The first four are
    [requests.exceptions] classes deriving from [RequestException]. *)
Inductive exn_class : Type :=
| ConnectionError
| Timeout
| RequestException
| HTTPError
| JSONDecodeError
| AttributeError
| TypeError
| KeyError
| IndexError
| ValueError
| RecursionError.

Record exn : Type := mkExn { exn_cls : exn_class; exn_msg : string }.

(** Result of a pure Python expression: a value or a raised exception. *)
Inductive res (A : Type) : Type :=
| Ok (a : A)
| Err (e : exn).
Arguments Ok {A} a.
Arguments Err {A} e.

Module Py.

(** [bool(v)] *)
Definition truthy (v : json) : bool :=
  match v with
  | JNull => false
  | JBool b => b
  | JNum n => negb (n =? 0)
  | JStr s => negb (String.eqb s "")
  | JArr l => match l with [] => false | _ => true end
  | JObj l => match l with [] => false | _ => true end
  end.

(** [v == "s"] for a string literal [s] *)
Definition eq_str (v : json) (s : string) : bool :=
  match v with
  | JStr t => String.eqb t s
  | _ => false
  end.

Fixpoint lookup (k : string) (d : list (string * json)) : option json :=
  match d with
  | [] => None
  | (k', v) :: d' => if String.eqb k k' then Some v else lookup k d'
  end.

(** [needle in hay] on two strings *)
Fixpoint substring_of (needle hay : string) : bool :=
  String.prefix needle hay
  || match hay with
     | EmptyString => false
     | String _ hay' => substring_of needle hay'
     end.

Fixpoint chars (s : string) : list json :=
  match s with
  | EmptyString => []
  | String c s' => JStr (String c EmptyString) :: chars s'
  end.

Section WithTexts.
(** The text CPython gives to the exceptions it raises itself. *)
Variable text : exn_class -> string.

Definition fail {A} (c : exn_class) : res A := Err (mkExn c (text c)).

(** [v.get(k, default)]; only a dict has the method. *)
Definition get (v : json) (k : string) (default : json) : res json :=
  match v with
  | JObj d => Ok (match lookup k d with Some x => x | None => default end)
  | _ => fail AttributeError
  end.

(** ["k" in v] *)
Definition contains (k : string) (v : json) : res bool :=
  match v with
  | JObj d => Ok (match lookup k d with Some _ => true | None => false end)
  | JArr l => Ok (existsb (fun x => eq_str x k) l)
  | JStr s => Ok (substring_of k s)
  | _ => fail TypeError
  end.

(** The sequence a [for] loop over [v] runs through. *)
Definition iter (v : json) : res (list json) :=
  match v with
  | JArr l => Ok l
  | JObj d => Ok (map (fun kv => JStr (fst kv)) d)
  | JStr s => Ok (chars s)
  | _ => fail TypeError
  end.

(** [len(v)] *)
Definition len (v : json) : res Z :=
  match v with
  | JArr l => Ok (Z.of_nat (List.length l))
  | JObj d => Ok (Z.of_nat (List.length d))
  | JStr s => Ok (Z.of_nat (String.length s))
  | _ => fail TypeError
  end.

(** [v[0]]; a dict parsed from JSON has string keys only. *)
Definition item0 (v : json) : res json :=
  match v with
  | JArr (x :: _) => Ok x
  | JArr [] => fail IndexError
  | JStr (String c _) => Ok (JStr (String c EmptyString))
  | JStr EmptyString => fail IndexError
  | JObj _ => fail KeyError
  | _ => fail TypeError
  end.

(** [a + "s"] and ["s" + b] for a string [s]: both sides must be str. *)
Definition as_str (v : json) : res string :=
  match v with
  | JStr s => Ok s
  | _ => fail TypeError
  end.
End WithTexts.

End Py.

(* ------------------------------------------------------------------ *)
(** ** The outside world *)

(** What a [requests] call comes back with: an exception of [requests]
    raised before a response exists (a transport failure, [Failed]), a
    completed exchange with a status code and a body, [None] when the
    body is not JSON ([Response]), or any other exception the call lets
    through ([Raised]): [requests] does not wrap every exception of the
    libraries under it, e.g. urllib3's [LocationParseError], a
    [ValueError], for a URL it cannot parse. *)
Inductive transport_error : Type :=
| ConnectionFailed
| TimedOut
| OtherRequestFailure.

Inductive http_outcome : Type :=
| Failed (why : transport_error) (msg : string)
| Response (status_code : Z) (body : option json)
| Raised (e : exn).

Inductive Event : Type :=
| EvHealth                                   (* GET  {MCP_SERVER_URL}/health, timeout 2 *)
| EvToolCall (name parameters : json)        (* POST {MCP_SERVER_URL}/tool_call, timeout 10 *)
| EvSleep (seconds : Z)                      (* time.sleep *)
| EvClaude (messages : list json)            (* POST CLAUDE_API_URL *)
| EvSearch (q : json).                       (* GET  DUCKDUCKGO_ENDPOINT *)

Record Env : Type := mkEnv {
  health_service : list Event -> http_outcome;
  tool_service : list Event -> json -> json -> http_outcome;
  claude_service : list Event -> list json -> http_outcome;
  search_service : list Event -> json -> http_outcome;
  (** texts of exceptions raised by the interpreter and by [requests] *)
  exn_text : exn_class -> string;
  http_error_text : Z -> string;
  (** since requests 2.27 [response.json()] raises a [RequestException]
      subclass; before, a plain [ValueError] subclass *)
  json_error_is_request_exception : bool
}.

Record World : Type := mkWorld {
  trace : list Event;
  conversation_history : list json
}.

(* ------------------------------------------------------------------ *)
(** ** Computations *)

Inductive outcome (A : Type) : Type :=
| Val (a : A)
| Raise (e : exn)
| Exhausted.
Arguments Val {A} a.
Arguments Raise {A} e.
Arguments Exhausted {A}.

Definition M (A : Type) : Type := World -> outcome A * World.

Definition ret {A} (a : A) : M A := fun w => (Val a, w).

Definition bind {A B} (c : M A) (k : A -> M B) : M B :=
  fun w =>
    match c w with
    | (Val a, w') => k a w'
    | (Raise e, w') => (Raise e, w')
    | (Exhausted, w') => (Exhausted, w')
    end.

Definition raise {A} (e : exn) : M A := fun w => (Raise e, w).

Definition exhausted {A} : M A := fun w => (Exhausted, w).

Definition lift {A} (r : res A) : M A :=
  match r with
  | Ok a => ret a
  | Err e => raise e
  end.

(** [try: body  except <classes> as e: handler e] *)
Definition try_except {A} (body : M A) (catches : exn -> bool) (handler : exn -> M A) : M A :=
  fun w =>
    match body w with
    | (Raise e, w') => if catches e then handler e w' else (Raise e, w')
    | r => r
    end.

Definition log (ev : Event) : M unit :=
  fun w => (Val tt, mkWorld (trace w ++ [ev]) (conversation_history w)).

Definition get_history : M (list json) :=
  fun w => (Val (conversation_history w), w).

Definition set_history (h : list json) : M unit :=
  fun w => (Val tt, mkWorld (trace w) h).

Declare Scope py_scope.
Delimit Scope py_scope with py.
Notation "x <- c ;; k" := (bind c (fun x => k))
  (at level 100, c at next level, right associativity) : py_scope.
Notation "c ;; k" := (bind c (fun _ => k))
  (at level 100, right associativity) : py_scope.
Local Open Scope py_scope.

(* ------------------------------------------------------------------ *)
(** ** The [requests] library *)

Record response : Type := mkResponse { status_code : Z; body : option json }.

Definition transport_class (t : transport_error) : exn_class :=
  match t with
  | ConnectionFailed => ConnectionError
  | TimedOut => Timeout
  | OtherRequestFailure => RequestException
  end.

Section Program.

Variable env : Env.

Definition pylift {A} (f : (exn_class -> string) -> res A) : M A :=
  lift (f (exn_text env)).

(** One call of [requests.get] / [requests.post]: the event is recorded
    and the oracle, shown the events before it, decides the outcome. *)
Definition request (ev : Event) (oracle : list Event -> http_outcome) : M response :=
  fun w =>
    let w' := mkWorld (trace w ++ [ev]) (conversation_history w) in
    match oracle (trace w) with
    | Failed why msg => (Raise (mkExn (transport_class why) msg), w')
    | Response st b => (Val (mkResponse st b), w')
    | Raised e => (Raise e, w')
    end.

(** [response.raise_for_status()] raises [HTTPError] on 4xx and 5xx. *)
Definition is_error_status (st : Z) : bool := (400 <=? st) && (st <? 600).

Definition raise_for_status (r : response) : M unit :=
  if is_error_status (status_code r)
  then raise (mkExn HTTPError (http_error_text env (status_code r)))
  else ret tt.

(** [response.json()] *)
Definition response_json (r : response) : M json :=
  match body r with
  | Some j => ret j
  | None => raise (mkExn JSONDecodeError (exn_text env JSONDecodeError))
  end.

(** [except requests.exceptions.RequestException] *)
Definition is_request_exception (e : exn) : bool :=
  match exn_cls e with
  | ConnectionError | Timeout | RequestException | HTTPError => true
  | JSONDecodeError => json_error_is_request_exception env
  | _ => false
  end.

(** [except Exception] *)
Definition is_exception (e : exn) : bool := true.

Definition sleep (seconds : Z) : M unit := log (EvSleep seconds).

(* ---------------------------------------------------------------- *)
(** ** mcp_integration.py *)

Record WebResult : Type := mkWebResult {
  title : json;
  url : json;
  description : json
}.

(** [dataclasses.asdict] *)
Definition asdict (r : WebResult) : json :=
  JObj [("title", title r); ("url", url r); ("description", description r)].

(** [MCPClient.search(query, count)] *)
Definition search (query : json) (count : Z) : M (list WebResult) :=
  try_except
    (response <- request (EvSearch query) (fun tr => search_service env tr query) ;;
     raise_for_status response ;;
     data <- response_json response ;;
     abstract <- pylift (fun t => Py.get t data "Abstract" JNull) ;;
     if Py.truthy abstract then
       heading <- pylift (fun t => Py.get t data "Heading" (JStr "")) ;;
       abstract_url <- pylift (fun t => Py.get t data "AbstractURL" (JStr "")) ;;
       abstract' <- pylift (fun t => Py.get t data "Abstract" (JStr "")) ;;
       ret [mkWebResult heading abstract_url abstract']
     else ret [])
    is_exception
    (fun e => ret []).

(** [handle_claude_tool_call(tool_params)].  Building the
    [ClaudeMCPBridge] constructs two client objects and contacts no
    service. *)
Definition handle_claude_tool_call (tool_params : json) : M json :=
  query <- pylift (fun t => Py.get t tool_params "query" (JStr "")) ;;
  if negb (Py.truthy query) then ret (JObj [("error", JStr "no query")])
  else
    results <- search query 10 ;;
    ret (JObj [("results", JArr (map asdict results))]).

(* ---------------------------------------------------------------- *)
(** ** claude_mcp_client.py *)

(** [ClaudeClient._check_mcp_server()] *)
Definition _check_mcp_server : M bool :=
  try_except
    (response <- request EvHealth (health_service env) ;;
     ret (status_code response =? 200))
    is_request_exception
    (fun e => ret false).

Definition error_dict (msg : string) : json := JObj [("error", JStr msg)].

Definition max_retries : Z := 3.

(** The [while retry_count < max_retries] loop of [_handle_tool_call].
    Every pass either returns or adds one to [retry_count], so
    [max_retries] passes are enough; [passes] counts them down. *)
Fixpoint retry_loop (passes : nat) (tool_name tool_params : json) (retry_count : Z) : M json :=
  if retry_count <? max_retries then
    match passes with
    | O => exhausted
    | S passes' =>
        try_except
          (response <- request (EvToolCall tool_name tool_params)
                         (fun tr => tool_service env tr tool_name tool_params) ;;
           raise_for_status response ;;
           response_json response)
          is_request_exception
          (fun e =>
             let retry_count := retry_count + 1 in
             if retry_count <? max_retries then
               let wait_time := 2 ^ retry_count in
               sleep wait_time ;;
               retry_loop passes' tool_name tool_params retry_count
             else ret (error_dict "MCP server not responding after retries"))
    end
  else ret (error_dict "Unknown error in _handle_tool_call").

(** [ClaudeClient._handle_tool_call(tool_call)] *)
Definition _handle_tool_call (tool_call : json) : M json :=
  tool_name <- pylift (fun t => Py.get t tool_call "name" JNull) ;;
  tool_params <- pylift (fun t => Py.get t tool_call "parameters" JNull) ;;
  alive <- _check_mcp_server ;;
  if negb alive then ret (error_dict "MCP server not available")
  else retry_loop (Z.to_nat max_retries) tool_name tool_params 0.

(** [description] of the first result, as [send_message] extracts it:
    [tool_response.get("results") and len(tool_response["results"]) > 0]
    guards [tool_response["results"][0].get("description", "")]. *)
Definition tool_description (tool_response : json) : M json :=
  results <- pylift (fun t => Py.get t tool_response "results" JNull) ;;
  if Py.truthy results then
    n <- pylift (fun t => Py.len t results) ;;
    if n >? 0 then
      first <- pylift (fun t => Py.item0 t results) ;;
      pylift (fun t => Py.get t first "description" (JStr ""))
    else ret (JStr "")
  else ret (JStr "").

Definition user_turn (message : string) : json :=
  JObj [("role", JStr "user"); ("content", JStr message)].

Definition assistant_turn (text : string) : json :=
  JObj [("role", JStr "assistant");
        ("content", JArr [JObj [("type", JStr "text"); ("text", JStr text)]])].

Definition newline : string := String (ascii_of_nat 10) EmptyString.

Definition tool_result_intro : string :=
  newline ++ newline
  ++ "The tool call was successful and here is the information from the tool call: ".

Definition summarize_request : string :=
  "Please summarize the information from the tool call and don't send any more tool calls".

(** [for content_block in ...: if content_block.get("type") == "tool_use": return ...]
    [Some r] is the value returned from inside the loop, [None] means
    the loop ran to its end. *)
Fixpoint for_tool_use (on_tool_use : json -> M json) (blocks : list json) : M (option json) :=
  match blocks with
  | [] => ret None
  | content_block :: rest =>
      ty <- pylift (fun t => Py.get t content_block "type" JNull) ;;
      if Py.eq_str ty "tool_use" then
        r <- on_tool_use content_block ;;
        ret (Some r)
      else for_tool_use on_tool_use rest
  end.

(** the loop of [get_final_answer] *)
Fixpoint for_text (blocks : list json) : M (option json) :=
  match blocks with
  | [] => ret None
  | content_block :: rest =>
      ty <- pylift (fun t => Py.get t content_block "type" JNull) ;;
      if Py.eq_str ty "text" then
        text <- pylift (fun t => Py.get t content_block "text" (JStr "")) ;;
        ret (Some text)
      else for_text rest
  end.

Section Client.

(** [self.api_key] *)
Variable api_key : string.

(** The body of the [if content_block.get("type") == "tool_use"]
    branch; [self] is the recursive [self.send_message]. *)
Definition on_tool_use (self : string -> option (list json) -> M json)
    (message : string) (result content_block : json) : M json :=
  name <- pylift (fun t => Py.get t content_block "name" (JStr "")) ;;
  input <- pylift (fun t => Py.get t content_block "input" (JObj [])) ;;
  query <- pylift (fun t => Py.get t input "query" (JObj [])) ;;
  let tool_call := JObj [("name", name); ("parameters", JObj [("query", query)])] in
  tool_response <- _handle_tool_call tool_call ;;
  description <- tool_description tool_response ;;
  content <- pylift (fun t => Py.get t result "content" (JArr [JObj []])) ;;
  first <- pylift (fun t => Py.item0 t content) ;;
  text <- pylift (fun t => Py.get t first "text" (JStr "")) ;;
  text <- pylift (fun t => Py.as_str t text) ;;
  description <- pylift (fun t => Py.as_str t description) ;;
  history <- get_history ;;
  set_history (history ++ [user_turn message;
                           assistant_turn (text ++ tool_result_intro ++ description)])%list ;;
  history <- get_history ;;
  self summarize_request (Some history).

(** One activation of [send_message].  The list object the caller
    passes (a fresh [[]] for [None]) is the [conversation_history] of
    the world from then on: [extend] updates it in place and the
    recursive call receives the same object. *)
Definition send_message_body (self : string -> option (list json) -> M json)
    (message : string) (history_arg : option (list json)) : M json :=
  if negb (Py.truthy (JStr api_key)) then
    raise (mkExn ValueError "Claude API key is required")
  else
    set_history (match history_arg with Some h => h | None => [] end) ;;
    history <- get_history ;;
    let messages := (history ++ [user_turn message])%list in
    try_except
      (response <- request (EvClaude messages) (fun tr => claude_service env tr messages) ;;
       (if negb (status_code response =? 200)
        then _ <- response_json response ;; ret tt
        else ret tt) ;;
       raise_for_status response ;;
       result <- response_json response ;;
       has_content <- pylift (fun t => Py.contains t "content" result) ;;
       returned <-
         (if has_content then
            content <- pylift (fun t => Py.get t result "content" (JArr [])) ;;
            blocks <- pylift (fun t => Py.iter t content) ;;
            for_tool_use (on_tool_use self message result) blocks
          else ret None) ;;
       match returned with
       | Some r => ret r
       | None => ret result
       end)
      is_exception
      (fun e => ret (error_dict (exn_msg e))).

(** [ClaudeClient.send_message(message, conversation_history)];
    [depth] bounds the nesting of the recursive self-call. *)
Fixpoint send_message (depth : nat) (message : string)
    (history_arg : option (list json)) : M json :=
  match depth with
  | O => exhausted
  | S depth' => send_message_body (send_message depth') message history_arg
  end.

(** [ClaudeClient.get_final_answer(message)] *)
Definition get_final_answer (depth : nat) (message : string) : M json :=
  try_except
    (response <- send_message depth message None ;;
     has_content <- pylift (fun t => Py.contains t "content" response) ;;
     found <-
       (if has_content then
          content <- pylift (fun t => Py.get t response "content" (JArr [])) ;;
          blocks <- pylift (fun t => Py.iter t content) ;;
          for_text blocks
        else ret None) ;;
     match found with
     | Some text => ret text
     | None => ret (JStr "No clear answer found")
     end)
    is_exception
    (fun e => ret (JStr ("Error: " ++ exn_msg e))).

(** [send_message] on a call stack with room for [limit] nested
    activations.  The call that does not fit raises [RecursionError];
    it is raised where the call is made, that is inside the [try] of
    the calling activation (or of [get_final_answer] for the first
    call).  In CPython the stack may also run out in a deeper call of
    the last activation that fits; that is inside the same [try], and
    the same [except Exception] catches it. *)
Fixpoint send_message_limited (limit : nat) (message : string)
    (history_arg : option (list json)) : M json :=
  match limit with
  | O => raise (mkExn RecursionError (exn_text env RecursionError))
  | S limit' => send_message_body (send_message_limited limit') message history_arg
  end.

(** [ClaudeClient.get_final_answer(message)] on that call stack *)
Definition get_final_answer_limited (limit : nat) (message : string) : M json :=
  try_except
    (response <- send_message_limited limit message None ;;
     has_content <- pylift (fun t => Py.contains t "content" response) ;;
     found <-
       (if has_content then
          content <- pylift (fun t => Py.get t response "content" (JArr [])) ;;
          blocks <- pylift (fun t => Py.iter t content) ;;
          for_text blocks
        else ret None) ;;
     match found with
     | Some text => ret text
     | None => ret (JStr "No clear answer found")
     end)
    is_exception
    (fun e => ret (JStr ("Error: " ++ exn_msg e))).

(** [ClaudeClient.__init__]: the headers and the tool schema are
    constants; the last statement probes the MCP server and drops the
    answer. *)
Definition ClaudeClient_init : M unit :=
  _ <- _check_mcp_server ;;
  ret tt.

End Client.

(* ---------------------------------------------------------------- *)
(** ** ask_claude.py *)

(** [check_mcp_server()]: the same probe as the client's, on the same
    URL.  [main] does not call it. *)
Definition check_mcp_server : M bool :=
  try_except
    (response <- request EvHealth (health_service env) ;;
     ret (status_code response =? 200))
    is_request_exception
    (fun e => ret false).

Inductive main_result : Type :=
| Exit (code : Z)                (* sys.exit(code) *)
| Answer (answer : json)         (* print("Answer", answer) *)
| ErrorShown (e : exn).          (* print(" Error while getting answer: ...") *)

(** [main()].  [environ_key] is [os.environ.get("CLAUDE_API_KEY")],
    [query_args] is [args.query] and [typed] what [input] reads. *)
Definition main (environ_key : option string) (query_args : list string)
    (typed : string) (depth : nat) : M main_result :=
  let key := match environ_key with Some k => k | None => "" end in
  if negb (Py.truthy (JStr key)) then ret (Exit 1)
  else
    let query :=
      match query_args with
      | [] => typed
      | _ => String.concat " " query_args
      end in
    ClaudeClient_init ;;
    try_except
      (answer <- get_final_answer key depth query ;;
       ret (Answer answer))
      is_exception
      (fun e => ret (ErrorShown e)).

End Program.

(* ------------------------------------------------------------------ *)
(** ** Vocabulary of the statements *)

Local Open Scope list_scope.

(** A tool invocation as [send_message] builds it. *)
Definition tool_invocation (name parameters : json) : json :=
  JObj [("name", name); ("parameters", parameters)].

(** The world after some more events, the history object untouched. *)
Definition after (w : World) (evs : list Event) : World :=
  mkWorld (trace w ++ evs) (conversation_history w).

(** [d.get(k)] on the fields of a dict *)
Definition field (d : list (string * json)) (k : string) (default : json) : json :=
  match Py.lookup k d with
  | Some v => v
  | None => default
  end.

(** The outcomes of a tool-call attempt that the [except] clause of the
    retry loop catches: an exception of the transport, an HTTP error
    status, a body that is not JSON when [requests] reports that as
    a [RequestException], and any other raised exception whose class is
    a [RequestException]. *)
Definition caught_by_retry (env : Env) (o : http_outcome) : bool :=
  match o with
  | Failed _ _ => true
  | Response st b =>
      is_error_status st
      || match b with
         | Some _ => false
         | None => json_error_is_request_exception env
         end
  | Raised e => is_request_exception env e
  end.

(** An exception that an [except requests.exceptions.RequestException]
    clause around the call does not catch. *)
Definition escapes (env : Env) (o : http_outcome) : option exn :=
  match o with
  | Raised e => if is_request_exception env e then None else Some e
  | _ => None
  end.

(** How the health probe ends for the outcome of its GET. *)
Definition probe_outcome (env : Env) (o : http_outcome) : outcome bool :=
  match o with
  | Response st _ => Val (st =? 200)
  | Failed _ _ => Val false
  | Raised e => if is_request_exception env e then Val false else Raise e
  end.

(** What the health probe returns for the outcome of its GET: [True]
    for a completed exchange with status 200, [False] for any other
    status and for an exception it catches; [None] when an exception
    escapes, and the probe returns nothing. *)
Definition probe_returns (env : Env) (o : http_outcome) : option bool :=
  match o with
  | Response st _ => Some (st =? 200)
  | Failed _ _ => Some false
  | Raised e => if is_request_exception env e then Some false else None
  end.

Definition is_tool_post (e : Event) : bool :=
  match e with
  | EvToolCall _ _ => true
  | _ => false
  end.

Definition is_health_probe (e : Event) : bool :=
  match e with
  | EvHealth => true
  | _ => false
  end.

Definition is_claude_request (e : Event) : bool :=
  match e with
  | EvClaude _ => true
  | _ => false
  end.

Definition count (p : Event -> bool) (tr : list Event) : nat :=
  List.length (filter p tr).

(** [frames P c]: running [c] leaves the history object alone and adds
    only events satisfying [P] to the trace. *)
Definition frames {A} (P : Event -> Prop) (c : M A) : Prop :=
  forall w, exists evs, snd (c w) = after w evs /\ Forall P evs.

(** The events of the retry loop for one invocation: posts of that
    invocation and sleeps. *)
Definition retry_event (name params : json) (e : Event) : Prop :=
  e = EvToolCall name params \/ exists seconds, e = EvSleep seconds.

(* ------------------------------------------------------------------ *)
(** ** Sample collaborators *)

Definition class_name (c : exn_class) : string :=
  match c with
  | ConnectionError => "ConnectionError"
  | Timeout => "Timeout"
  | RequestException => "RequestException"
  | HTTPError => "HTTPError"
  | JSONDecodeError => "JSONDecodeError"
  | AttributeError => "AttributeError"
  | TypeError => "TypeError"
  | KeyError => "KeyError"
  | IndexError => "IndexError"
  | ValueError => "ValueError"
  | RecursionError => "RecursionError"
  end.

Definition down : http_outcome := Failed ConnectionFailed "connection refused".

Definition sample_env (health : list Event -> http_outcome)
    (tool : list Event -> json -> json -> http_outcome)
    (claude : list Event -> list json -> http_outcome)
    (ddg : list Event -> json -> http_outcome) : Env :=
  mkEnv health tool claude ddg class_name (fun _ => "HTTP error") true.

Definition healthy (_ : list Event) : http_outcome :=
  Response 200 (Some (JObj [("status", JStr "ok")])).

Definition empty_world : World := mkWorld [] [].

(** An MCP server that is up and answers an empty query the way
    [handle_claude_tool_call] does. *)
Definition env_no_query : Env :=
  sample_env healthy
    (fun _ _ _ => Response 200 (Some (error_dict "no query")))
    (fun _ _ => down) (fun _ _ => down).

(** An MCP server that cannot be reached. *)
Definition env_unreachable : Env :=
  sample_env (fun _ => down) (fun _ _ _ => down) (fun _ _ => down) (fun _ _ => down).

Definition one_result : json :=
  JObj [("results",
         JArr [JObj [("title", JStr "Eiffel Tower");
                     ("url", JStr "https://en.wikipedia.org/wiki/Eiffel_Tower");
                     ("description", JStr "330 m")]])].

(** The tool call times out until [failures] attempts have been made. *)
Definition flaky_tool (failures : nat) (tr : list Event) (_ _ : json) : http_outcome :=
  if Nat.ltb (count is_tool_post tr) failures
  then Failed TimedOut "read timed out"
  else Response 200 (Some one_result).

Definition env_flaky (failures : nat) : Env :=
  sample_env healthy (flaky_tool failures) (fun _ _ => down) (fun _ _ => down).

(** The first tool call is answered with status 500 and an error body,
    the second one with results. *)
Definition env_500_then_ok : Env :=
  sample_env healthy
    (fun tr _ _ =>
       if Nat.ltb (count is_tool_post tr) 1
       then Response 500 (Some (error_dict "internal error"))
       else Response 200 (Some one_result))
    (fun _ _ => down) (fun _ _ => down).

(** The tool call is answered with status 200 and an error body. *)
Definition env_200_error : Env :=
  sample_env healthy
    (fun _ _ _ => Response 200 (Some (error_dict "no query")))
    (fun _ _ => down) (fun _ _ => down).

Definition eiffel_call : json :=
  tool_invocation (JStr "fetch_web_content") (JObj [("query", JStr "Eiffel Tower height")]).

Definition empty_query_call : json :=
  tool_invocation (JStr "fetch_web_content") (JObj [("query", JStr "")]).

(** DuckDuckGo answering with an abstract. *)
Definition ddg_abstract : json :=
  JObj [("Abstract", JStr "The Eiffel Tower is a wrought-iron lattice tower.");
        ("Heading", JStr "Eiffel Tower");
        ("AbstractURL", JStr "https://en.wikipedia.org/wiki/Eiffel_Tower")].

Definition env_ddg (o : http_outcome) : Env :=
  sample_env healthy (fun _ _ _ => down) (fun _ _ => down) (fun _ _ => o).

(* ------------------------------------------------------------------ *)
(** ** Reading a response of the model *)

(** A content block that is a dict whose type is not ["tool_use"]. *)
Definition plain_block (block : json) : bool :=
  match block with
  | JObj d => negb (Py.eq_str (field d "type" JNull) "tool_use")
  | _ => false
  end.

Definition is_text_block (block : json) : bool :=
  match block with
  | JObj d => Py.eq_str (field d "type" JNull) "text"
  | _ => false
  end.

Definition is_dict (v : json) : bool :=
  match v with
  | JObj _ => true
  | _ => false
  end.

Definition text_of (block : json) : json :=
  match block with
  | JObj d => field d "text" (JStr "")
  | _ => JNull
  end.

(** ["content"] is missing or holds a list. *)
Definition content_is_list (d : list (string * json)) : bool :=
  match Py.lookup "content" d with
  | Some (JArr _) | None => true
  | Some _ => false
  end.

Definition blocks_of (d : list (string * json)) : list json :=
  match Py.lookup "content" d with
  | Some (JArr blocks) => blocks
  | _ => []
  end.

(** The answer [get_final_answer] reads from a list of blocks. *)
Definition answer_of (blocks : list json) : json :=
  match find is_text_block blocks with
  | Some block => text_of block
  | None => JStr "No clear answer found"
  end.

(** The first block of a response whose blocks are [pre ++ JObj b :: _],
    all of [pre] being dicts. *)
Definition leading_block (pre : list json) (b : list (string * json)) : list (string * json) :=
  match pre with
  | JObj d :: _ => d
  | _ => b
  end.

(** [descr] is the description [send_message] takes from a tool
    response: that of the first result, or the empty string when there
    is no non-empty list of results. *)
Definition described (tool_response : json) (descr : string) : Prop :=
  exists d,
    tool_response = JObj d
    /\ ((Py.truthy (field d "results" JNull) = false /\ descr = "")
        \/ exists r rest,
             field d "results" JNull = JArr (JObj r :: rest)
             /\ field r "description" (JStr "") = JStr descr).

(** The history after a tool round trip. *)
Definition round_trip_turns (message leading_text descr : string) : list json :=
  [user_turn message;
   assistant_turn (leading_text ++ tool_result_intro ++ descr)%string].

Inductive role : Type :=
| User
| Assistant.

Definition role_of (turn : json) : option role :=
  match turn with
  | JObj d =>
      match Py.lookup "role" d with
      | Some (JStr r) =>
          if String.eqb r "user" then Some User
          else if String.eqb r "assistant" then Some Assistant
          else None
      | _ => None
      end
  | _ => None
  end.

Definition has_role (r : role) (turn : json) : bool :=
  match role_of turn, r with
  | Some User, User | Some Assistant, Assistant => true
  | _, _ => false
  end.

Definition other (r : role) : role :=
  match r with
  | User => Assistant
  | Assistant => User
  end.

(** The roles of [turns] are [first], [other first], [first], ... *)
Fixpoint alternates (first : role) (turns : list json) : bool :=
  match turns with
  | [] => true
  | turn :: turns' => has_role first turn && alternates (other first) turns'
  end.

(** A history made of (user, assistant) pairs. *)
Definition paired (turns : list json) : bool :=
  alternates User turns && Nat.even (List.length turns).

(** Messages that start with a user turn, alternate, and end with a
    user turn. *)
Definition paired_then_asks (messages : list json) : bool :=
  alternates User messages && Nat.odd (List.length messages).

(** A request to the model whose messages are so. *)
Definition well_alternated (ev : Event) : bool :=
  match ev with
  | EvClaude messages => paired_then_asks messages
  | _ => true
  end.

(** The list object [send_message] works on: the caller's, or a fresh
    empty one. *)
Definition history_of (history_arg : option (list json)) : list json :=
  match history_arg with
  | Some h => h
  | None => []
  end.

(* ------------------------------------------------------------------ *)
(** ** Sample models *)

Definition text_block (s : string) : json :=
  JObj [("type", JStr "text"); ("text", JStr s)].

Definition tool_use_block (q : string) : json :=
  JObj [("type", JStr "tool_use");
        ("name", JStr "fetch_web_content");
        ("input", JObj [("query", JStr q)])].

Definition model_says (blocks : list json) : http_outcome :=
  Response 200 (Some (JObj [("content", JArr blocks)])).

(** The model answers at once. *)
Definition env_paris : Env :=
  sample_env healthy (fun _ _ _ => Response 200 (Some one_result))
    (fun _ _ => model_says [text_block "Paris is the capital of France."])
    (fun _ _ => down).

(** The model answers with an image block only. *)
Definition env_no_text : Env :=
  sample_env healthy (fun _ _ _ => Response 200 (Some one_result))
    (fun _ _ => model_says [JObj [("type", JStr "image")]])
    (fun _ _ => down).

(** The model cannot be reached; the model answers with status 529. *)
Definition env_model_down : Env :=
  sample_env healthy (fun _ _ _ => down)
    (fun _ _ => Failed TimedOut "read timed out") (fun _ _ => down).

Definition env_model_overloaded : Env :=
  sample_env healthy (fun _ _ _ => down)
    (fun _ _ => Response 529 (Some (error_dict "overloaded"))) (fun _ _ => down).

(** The model first asks for two tools in one response, then sums up. *)
Definition env_eiffel : Env :=
  sample_env healthy (fun _ _ _ => Response 200 (Some one_result))
    (fun _ messages =>
       match messages with
       | [_] => model_says [tool_use_block "Eiffel Tower height";
                            tool_use_block "Eiffel Tower weight"]
       | _ => model_says [text_block "The Eiffel Tower is 330 meters tall."]
       end)
    (fun _ _ => down).

(** The model asks for the tool on the first two requests. *)
Definition env_asks_twice : Env :=
  sample_env healthy (fun _ _ _ => Response 200 (Some one_result))
    (fun tr _ =>
       if Nat.ltb (count is_claude_request tr) 2
       then model_says [text_block "Let me look."; tool_use_block "Eiffel Tower height"]
       else model_says [text_block "The Eiffel Tower is 330 meters tall."])
    (fun _ _ => down).

(** The model asks for the tool on every request. *)
Definition env_asks_forever : Env :=
  sample_env healthy (fun _ _ _ => Response 200 (Some one_result))
    (fun _ _ => model_says [tool_use_block "Eiffel Tower height"])
    (fun _ _ => down).



(** [grows c]: running [c] only adds events to the trace. *)
Definition grows {A} (c : M A) : Prop :=
  forall w, exists evs, trace (snd (c w)) = trace w ++ evs.

(* ------------------------------------------------------------------ *)
(** ** A model that keeps asking for the tool *)

(** The model's answer is a well-formed response with a tool-use block:
    [JObj b] is the first one, its input is a dict, and the text of the
    response's first block, if any, is a string. *)
Definition asks_for_tool (env : Env) (o : http_outcome) : Prop :=
  exists st d pre b post q text,
    o = Response st (Some (JObj d))
    /\ is_error_status st = false
    /\ Py.lookup "content" d = Some (JArr (pre ++ JObj b :: post))
    /\ forallb plain_block pre = true
    /\ Py.eq_str (field b "type" JNull) "tool_use" = true
    /\ Py.get (exn_text env) (field b "input" (JObj [])) "query" (JObj []) = Ok q
    /\ field (leading_block pre b) "text" (JStr "") = JStr text.

(** The MCP server's answer to a tool call is either caught by the retry
    loop or a body the orchestrator can read a description from. *)
Definition readable_or_retried (env : Env) (o : http_outcome) : Prop :=
  caught_by_retry env o = true
  \/ exists st body descr,
       o = Response st (Some body) /\ is_error_status st = false /\ described body descr.

(** Number of dispatches in a trace: every run of [_handle_tool_call]
    performs one health probe, and [send_message] performs no other. *)
Definition dispatches (tr : list Event) : nat := count is_health_probe tr.

(** A world in order: the history object is made of (user, assistant)
    pairs and every request sent to the model so far alternates. *)
Definition in_order (w : World) : Prop :=
  paired (conversation_history w) = true
  /\ Forall (fun e => well_alternated e = true) (trace w).

(** [keeps c Q]: from a world in order, [c] ends in a world in order,
    and a value it returns satisfies [Q]. *)
Definition keeps {A} (c : M A) (Q : A -> Prop) : Prop :=
  forall w, in_order w ->
    in_order (snd (c w)) /\ forall a, fst (c w) = Val a -> Q a.

Definition anything {A} (_ : A) : Prop := True.

(* ------------------------------------------------------------------ *)
(** ** Vocabulary of the further properties *)

(** The name and the parameters [_handle_tool_call] reads from a dict. *)
Definition call_name (d : list (string * json)) : json := field d "name" JNull.
Definition call_parameters (d : list (string * json)) : json := field d "parameters" JNull.

(** The events a dispatch can add after its health probe: nothing, or
    one, two or three posts with sleeps of 2 and 4 seconds between
    them. *)
Definition attempt_traces (name params : json) : list (list Event) :=
  let post := EvToolCall name params in
  [ [];
    [post];
    [post; EvSleep 2; post];
    [post; EvSleep 2; post; EvSleep 4; post] ].

(** What the retry loop can end with: the body of a completed exchange
    whose status is not 4xx/5xx, the give-up answer, the decoding error
    of a body that is not JSON when [requests] does not report it as a
    [RequestException], or an exception of a post that escapes the
    [except] clause. *)
Definition loop_result (env : Env) (name params : json) (r : outcome json) : Prop :=
  (exists tr st b,
     tool_service env tr name params = Response st (Some b)
     /\ is_error_status st = false /\ r = Val b)
  \/ r = Val (error_dict "MCP server not responding after retries")
  \/ (json_error_is_request_exception env = false
      /\ r = Raise (mkExn JSONDecodeError (exn_text env JSONDecodeError)))
  \/ (exists tr e,
        escapes env (tool_service env tr name params) = Some e /\ r = Raise e).

(** Seconds slept in a list of events. *)
Definition total_sleep (evs : list Event) : Z :=
  fold_right (fun e acc => match e with EvSleep s => s + acc | _ => acc end) 0 evs.

(** What the search provider's answer amounts to for the handler: the
    abstract, when the exchange succeeds with a JSON object whose
    [Abstract] is truthy. *)
Definition provided_abstract (o : http_outcome) : option json :=
  match o with
  | Response st (Some (JObj data)) =>
      if is_error_status st then None
      else if Py.truthy (field data "Abstract" JNull)
           then Some (field data "Abstract" (JStr ""))
           else None
  | _ => None
  end.

(** The results [search] makes of the provider's answer. *)
Definition found (o : http_outcome) : list WebResult :=
  match o with
  | Response st (Some (JObj data)) =>
      if is_error_status st then []
      else if Py.truthy (field data "Abstract" JNull)
           then [mkWebResult (field data "Heading" (JStr ""))
                             (field data "AbstractURL" (JStr ""))
                             (field data "Abstract" (JStr ""))]
           else []
  | _ => []
  end.

(** [maintains Inv c Q]: from a world satisfying [Inv], [c] ends in a
    world satisfying [Inv], and a value it returns satisfies [Q]. *)
Definition maintains (Inv : World -> Prop) {A} (c : M A) (Q : A -> Prop) : Prop :=
  forall w, Inv w ->
    Inv (snd (c w)) /\ forall a, fst (c w) = Val a -> Q a.

(** The history object holds [h] followed by whole (user, assistant)
    pairs. *)
Definition extends (h : list json) (history : list json) : Prop :=
  exists added, history = h ++ added /\ paired added = true.

(** The events of the client: everything but a request to the search
    provider. *)
Definition client_event (e : Event) : Prop :=
  match e with
  | EvSearch _ => False
  | _ => True
  end.

(* ------------------------------------------------------------------ *)
(** ** More sample collaborators *)

(** The model asks for the tool, then sums up; the MCP server is down. *)
Definition env_eiffel_no_server : Env :=
  sample_env (fun _ => down) (fun _ _ _ => down)
    (fun _ messages =>
       match messages with
       | [_] => model_says [text_block "Let me look."; tool_use_block "Eiffel Tower height"]
       | _ => model_says [text_block "I could not look it up."]
       end)
    (fun _ _ => down).

(** The MCP server answers with a result whose description is a number. *)
Definition env_numeric_description : Env :=
  sample_env healthy
    (fun _ _ _ =>
       Response 200 (Some (JObj [("results", JArr [JObj [("description", JNum 330)]])])))
    (fun _ _ => model_says [tool_use_block "Eiffel Tower height"])
    (fun _ _ => down).

(** The model asks for the tool without giving an input. *)
Definition env_no_input : Env :=
  sample_env healthy (fun _ _ _ => Response 200 (Some (error_dict "no query")))
    (fun _ messages =>
       match messages with
       | [_] => model_says [JObj [("type", JStr "tool_use");
                                  ("name", JStr "fetch_web_content")]]
       | _ => model_says [text_block "What should I look up?"]
       end)
    (fun _ _ => down).

(** The model's content holds a string where a block is expected. *)
Definition env_string_block : Env :=
  sample_env healthy (fun _ _ _ => Response 200 (Some one_result))
    (fun _ _ => model_says [JStr "Paris"; tool_use_block "capital of France"])
    (fun _ _ => down).

(* ------------------------------------------------------------------ *)
(** ** mcp_integration.py: the query extractor of [ClaudeMCPBridge] *)

(** A content block of the message the Anthropic SDK returns: a text
    block, or a block of another kind, which has no [text] attribute. *)
Inductive sdk_block : Type :=
| SdkText (text : string)
| SdkOther.

Inductive sdk_outcome : Type :=
| SdkRaises (e : exn)
| SdkMessage (content : list sdk_block).

(** The library calls of [_extract_with_claude], as oracles. *)
Record TextLib : Type := mkTextLib {
  (** [self.claude_client.messages.create(..., messages=[user turn])],
      a POST to the same messages endpoint *)
  messages_create : list Event -> string -> sdk_outcome;
  (** group 1 of [re.search(r'```(?:json)?\s*({.*?})\s*```', content, re.DOTALL)],
      [None] when there is no match *)
  fenced_json : string -> option string;
  (** [content.strip()] *)
  strip : string -> string;
  (** [json.loads], [None] when it raises [json.JSONDecodeError] *)
  json_loads : string -> option json
}.

Section Bridge.

Variable lib : TextLib.
Variable env : Env.

Definition sdk_create (user_message : string) : M (list sdk_block) :=
  fun w =>
    let w' := mkWorld (trace w ++ [EvClaude [user_turn user_message]]) (conversation_history w) in
    match messages_create lib (trace w) user_message with
    | SdkRaises e => (Raise e, w')
    | SdkMessage content => (Val content, w')
    end.

(** [ClaudeMCPBridge._extract_with_claude(user_message)] *)
Definition _extract_with_claude (user_message : string) : M json :=
  try_except
    (response_content <- sdk_create user_message ;;
     first <- match response_content with
              | [] => raise (mkExn IndexError (exn_text env IndexError))
              | block :: _ => ret block
              end ;;
     content <- match first with
                | SdkText text => ret text
                | SdkOther => raise (mkExn AttributeError (exn_text env AttributeError))
                end ;;
     let json_str :=
       match fenced_json lib content with
       | Some group1 => group1
       | None => strip lib content
       end in
     match json_loads lib json_str with
     | None => ret (JStr "error")
     | Some result =>
         queries <- pylift env (fun t => Py.get t result "queries" (JArr [])) ;;
         ret queries
     end)
    is_exception
    (fun e => ret (JArr [])).

(** [ClaudeMCPBridge.extract_website_queries_with_llm(user_message)];
    [llm_provider] is [self.llm_provider]. *)
Definition extract_website_queries_with_llm (llm_provider : string)
    (user_message : string) : M json :=
  if String.eqb llm_provider "claude" then _extract_with_claude user_message
  else ret (JArr [JStr "error"]).

End Bridge.

(** The JSON text the extractor decodes: the fenced object if the
    pattern matches, the stripped text otherwise. *)
Definition json_text (lib : TextLib) (content : string) : string :=
  match fenced_json lib content with
  | Some group1 => group1
  | None => strip lib content
  end.

(** A library whose decoder accepts nothing, and one that decodes every
    text to an object listing one query. *)
Definition lib_undecodable (reply : string) : TextLib :=
  mkTextLib (fun _ _ => SdkMessage [SdkText reply]) (fun _ => None) (fun s => s)
    (fun _ => None).

Definition lib_one_query (reply : string) : TextLib :=
  mkTextLib (fun _ _ => SdkMessage [SdkText reply]) (fun _ => None) (fun s => s)
    (fun _ => Some (JObj [("queries", JArr [JStr "Eiffel Tower height"])])).

Definition lib_sdk_down : TextLib :=
  mkTextLib (fun _ _ => SdkRaises (mkExn ConnectionError "connection refused"))
    (fun _ => None) (fun s => s) (fun _ => None).

(* ------------------------------------------------------------------ *)
(** ** The retry loop, one pass at a time *)

Ltac norm_trace := repeat rewrite <- app_assoc; cbn [app].

Lemma after_after w evs evs' : after (after w evs) evs' = after w (evs ++ evs').
Proof. unfold after; cbn. now rewrite app_assoc. Qed.

Lemma after_nil w : after w [] = w.
Proof. destruct w; unfold after; cbn. now rewrite app_nil_r. Qed.

Section RetryLoop.

Variable env : Env.
Variables name params : json.

(** A pass whose exchange completes with a status outside 4xx/5xx and
    a JSON body returns that body; nothing is retried. *)
Lemma retry_loop_returns passes retry_count w st b :
  retry_count < max_retries ->
  tool_service env (trace w) name params = Response st (Some b) ->
  is_error_status st = false ->
  retry_loop env (S passes) name params retry_count w = (Val b, after w [EvToolCall name params]).
Proof.
  intros Hlt Ho Hst. cbn [retry_loop].
  apply Z.ltb_lt in Hlt. rewrite Hlt.
  unfold try_except, bind, request, raise_for_status, response_json.
  rewrite Ho. cbn. rewrite Hst. reflexivity.
Qed.

(** A pass whose attempt is caught, with attempts left: sleep
    [2 ^ retry_count'] and go round again. *)
Lemma retry_loop_retries passes retry_count w :
  retry_count + 1 < max_retries ->
  caught_by_retry env (tool_service env (trace w) name params) = true ->
  retry_loop env (S passes) name params retry_count w
  = retry_loop env passes name params (retry_count + 1)
      (after w [EvToolCall name params; EvSleep (2 ^ (retry_count + 1))]).
Proof.
  intros Hlt Hc. cbn [retry_loop].
  assert (H1 : (retry_count <? max_retries) = true) by (apply Z.ltb_lt; lia).
  apply Z.ltb_lt in Hlt. rewrite H1.
  unfold try_except, bind, request, raise_for_status, response_json, sleep, log.
  unfold caught_by_retry in Hc.
  destruct (tool_service env (trace w) name params) as [why msg | st b | e].
  - assert (Hr : is_request_exception env (mkExn (transport_class why) msg) = true)
      by (destruct why; reflexivity).
    rewrite Hr, Hlt. unfold after; cbn. now norm_trace.
  - cbn. destruct (is_error_status st) eqn:Hst; cbn.
    + rewrite Hlt. unfold after; cbn. now norm_trace.
    + destruct b as [b|]; cbn in Hc; [discriminate|].
      unfold is_request_exception; cbn. rewrite Hc, Hlt.
      unfold after; cbn. now norm_trace.
  - rewrite Hc, Hlt. unfold after; cbn. now norm_trace.
Qed.

(** The last pass, caught: the loop gives up. *)
Lemma retry_loop_gives_up passes retry_count w :
  retry_count < max_retries ->
  max_retries <= retry_count + 1 ->
  caught_by_retry env (tool_service env (trace w) name params) = true ->
  retry_loop env (S passes) name params retry_count w
  = (Val (error_dict "MCP server not responding after retries"), after w [EvToolCall name params]).
Proof.
  intros Hlt Hge Hc. cbn [retry_loop].
  apply Z.ltb_lt in Hlt. rewrite Hlt.
  assert (H1 : (retry_count + 1 <? max_retries) = false) by (apply Z.ltb_ge; lia).
  unfold try_except, bind, request, raise_for_status, response_json.
  unfold caught_by_retry in Hc.
  destruct (tool_service env (trace w) name params) as [why msg | st b | e].
  - assert (Hr : is_request_exception env (mkExn (transport_class why) msg) = true)
      by (destruct why; reflexivity).
    rewrite Hr, H1. reflexivity.
  - cbn. destruct (is_error_status st) eqn:Hst; cbn.
    + rewrite H1. reflexivity.
    + destruct b as [b|]; cbn in Hc; [discriminate|].
      unfold is_request_exception; cbn. rewrite Hc, H1. reflexivity.
  - rewrite Hc, H1. reflexivity.
Qed.

(** [_handle_tool_call] on an invocation: the probe, then the loop. *)
Lemma handle_tool_call_probe_ok w b0 :
  health_service env (trace w) = Response 200 b0 ->
  _handle_tool_call env (tool_invocation name params) w
  = retry_loop env (Z.to_nat max_retries) name params 0 (after w [EvHealth]).
Proof.
  intros Hh. unfold _handle_tool_call, _check_mcp_server, tool_invocation.
  cbn. unfold try_except, bind, request. rewrite Hh. reflexivity.
Qed.

Lemma handle_tool_call_probe_fails w :
  probe_returns env (health_service env (trace w)) = Some false ->
  _handle_tool_call env (tool_invocation name params) w
  = (Val (error_dict "MCP server not available"), after w [EvHealth]).
Proof.
  intros Hh. unfold _handle_tool_call, _check_mcp_server, tool_invocation.
  cbn. unfold try_except, bind, request.
  destruct (health_service env (trace w)) as [why msg | st b0 | e]; cbn in Hh.
  - assert (Hr : is_request_exception env (mkExn (transport_class why) msg) = true)
      by (destruct why; reflexivity).
    rewrite Hr. reflexivity.
  - cbn. injection Hh as ->. reflexivity.
  - destruct (is_request_exception env e); [reflexivity | discriminate].
Qed.

(** An exception that escapes the probe ends the dispatch. *)
Lemma handle_tool_call_probe_raises w e :
  escapes env (health_service env (trace w)) = Some e ->
  _handle_tool_call env (tool_invocation name params) w = (Raise e, after w [EvHealth]).
Proof.
  intros Hh. unfold _handle_tool_call, _check_mcp_server, tool_invocation.
  cbn. unfold try_except, bind, request.
  destruct (health_service env (trace w)) as [why msg | st b0 | e']; try discriminate.
  cbn in Hh. destruct (is_request_exception env e'); [discriminate|].
  now injection Hh as ->.
Qed.

End RetryLoop.

(* ------------------------------------------------------------------ *)
(** ** Which events a computation adds *)

Section Frames.

Variable P : Event -> Prop.

Lemma frames_ret {A} (a : A) : frames P (ret a).
Proof. intros w. exists []. cbn. now rewrite after_nil. Qed.

Lemma frames_raise {A} (e : exn) : frames P (@raise A e).
Proof. intros w. exists []. cbn. now rewrite after_nil. Qed.

Lemma frames_exhausted {A} : frames P (@exhausted A).
Proof. intros w. exists []. cbn. now rewrite after_nil. Qed.

Lemma frames_lift {A} (r : res A) : frames P (lift r).
Proof. destruct r; [apply frames_ret | apply frames_raise]. Qed.

Lemma frames_bind {A B} (c : M A) (k : A -> M B) :
  frames P c -> (forall a, frames P (k a)) -> frames P (bind c k).
Proof.
  intros Hc Hk w. unfold bind.
  destruct (Hc w) as (evs & E & F).
  destruct (c w) as [[a | e |] w1]; cbn in E; subst w1.
  - destruct (Hk a (after w evs)) as (evs' & E' & F').
    exists (evs ++ evs'). rewrite E', after_after. split; [reflexivity|].
    apply Forall_app. now split.
  - now exists evs.
  - now exists evs.
Qed.

Lemma frames_try {A} (body : M A) catches (handler : exn -> M A) :
  frames P body -> (forall e, frames P (handler e)) ->
  frames P (try_except body catches handler).
Proof.
  intros Hb Hh w. unfold try_except.
  destruct (Hb w) as (evs & E & F).
  destruct (body w) as [[a | e |] w1]; cbn in E; subst w1.
  - now exists evs.
  - destruct (catches e).
    + destruct (Hh e (after w evs)) as (evs' & E' & F').
      exists (evs ++ evs'). rewrite E', after_after. split; [reflexivity|].
      apply Forall_app. now split.
    + now exists evs.
  - now exists evs.
Qed.

Lemma frames_request ev oracle : P ev -> frames P (request ev oracle).
Proof.
  intros Hp w. exists [ev]. unfold request.
  destruct (oracle (trace w)); cbn; split; auto.
Qed.

Lemma frames_log ev : P ev -> frames P (log ev).
Proof. intros Hp w. exists [ev]. cbn. split; auto. Qed.

Lemma frames_raise_for_status env r : frames P (raise_for_status env r).
Proof.
  unfold raise_for_status.
  destruct (is_error_status _); [apply frames_raise | apply frames_ret].
Qed.

Lemma frames_response_json env r : frames P (response_json env r).
Proof.
  unfold response_json.
  destruct (body r); [apply frames_ret | apply frames_raise].
Qed.

End Frames.

Lemma frames_weaken {A} (P Q : Event -> Prop) (c : M A) :
  (forall e, P e -> Q e) -> frames P c -> frames Q c.
Proof.
  intros Hpq Hc w. destruct (Hc w) as (evs & E & F).
  exists evs. split; [exact E|].
  eapply Forall_impl; eauto.
Qed.

Create HintDb frames.
#[local] Hint Resolve frames_ret frames_raise frames_exhausted frames_lift
  frames_raise_for_status frames_response_json : frames.

Ltac frames_step :=
  first
    [ apply frames_bind; [| intros ?]
    | apply frames_try; [| intros ?]
    | apply frames_request; solve [left; reflexivity | right; eexists; reflexivity]
    | apply frames_log; solve [left; reflexivity | right; eexists; reflexivity]
    | solve [auto with frames]
    | unfold pylift; apply frames_lift ].

Lemma retry_loop_frames env passes name params retry_count :
  frames (retry_event name params) (retry_loop env passes name params retry_count).
Proof.
  revert retry_count.
  induction passes as [| passes IH]; intros retry_count; cbn [retry_loop];
    destruct (retry_count <? max_retries); auto with frames.
  apply frames_try; [repeat frames_step | intros e].
  destruct (retry_count + 1 <? max_retries); auto with frames.
  apply frames_bind; [apply frames_log; right; eexists; reflexivity | intros _; apply IH].
Qed.

Lemma check_mcp_server_run env w :
  _check_mcp_server env w
  = (probe_outcome env (health_service env (trace w)), after w [EvHealth]).
Proof.
  unfold _check_mcp_server, try_except, bind, request.
  destruct (health_service env (trace w)) as [why msg | st b0 | e]; cbn.
  - assert (Hr : is_request_exception env (mkExn (transport_class why) msg) = true)
      by (destruct why; reflexivity).
    now rewrite Hr.
  - reflexivity.
  - now destruct (is_request_exception env e).
Qed.



(** A dispatch starts with one health probe; what follows are tool-call
    attempts and sleeps. *)
Lemma handle_tool_call_events env name params w :
  exists r rest,
    _handle_tool_call env (tool_invocation name params) w = (r, after w (EvHealth :: rest))
    /\ Forall (retry_event name params) rest.
Proof.
  unfold _handle_tool_call, tool_invocation. cbn. unfold bind.
  rewrite check_mcp_server_run.
  destruct (probe_outcome env (health_service env (trace w))) as [[|] | e |]; cbn [negb].
  - match goal with
    | |- context [retry_loop env ?n name params 0 ?w1] =>
        destruct (retry_loop_frames env n name params 0 w1) as (evs & E & F);
        destruct (retry_loop env n name params 0 w1) as [r w2] eqn:R
    end.
    cbn in E. subst w2. exists r, evs. rewrite after_after. now split.
  - exists (Val (error_dict "MCP server not available")), []. now split.
  - exists (Raise e), []. now split.
  - exists Exhausted, []. now split.
Qed.

(** The retry loop never uses up its passes. *)
Lemma retry_loop_finishes env name params passes retry_count w :
  (max_retries - retry_count <= Z.of_nat passes) ->
  fst (retry_loop env passes name params retry_count w) <> Exhausted.
Proof.
  revert retry_count w.
  induction passes as [| passes IH]; intros retry_count w Hle; cbn [retry_loop].
  - assert (E : (retry_count <? max_retries) = false) by (apply Z.ltb_ge; lia).
    rewrite E. discriminate.
  - destruct (retry_count <? max_retries) eqn:E; [| discriminate].
    unfold try_except at 1.
    match goal with |- context [bind ?c ?k w] => destruct (bind c k w) as [[b | e |] w1] eqn:R end;
      cbn; try discriminate.
    + destruct (is_request_exception env e); [| discriminate].
      destruct (retry_count + 1 <? max_retries); [| discriminate].
      unfold bind, sleep, log. apply IH. lia.
    + exfalso. unfold bind, request, raise_for_status, response_json in R.
      destruct (tool_service env (trace w) name params) as [? ? | st b | ?];
        try discriminate.
      cbn in R. destruct (is_error_status st); [discriminate|].
      destruct b; discriminate.
Qed.

(** A dispatch ends: with a response, or with an exception when the
    tool call is not a dict or a body is not JSON. *)
Lemma handle_tool_call_finishes env tool_call w :
  fst (_handle_tool_call env tool_call w) <> Exhausted.
Proof.
  unfold _handle_tool_call, bind, pylift.
  destruct (Py.get (exn_text env) tool_call "name" JNull) as [tool_name | e];
    [| discriminate].
  cbn [lift ret raise].
  destruct (Py.get (exn_text env) tool_call "parameters" JNull) as [tool_params | e];
    [| discriminate].
  cbn [lift ret raise].
  rewrite check_mcp_server_run.
  destruct (health_service env (trace w)) as [why msg | st b0 | e]; cbn;
    try discriminate.
  - destruct (st =? 200); cbn [negb]; [| discriminate].
    apply retry_loop_finishes. unfold max_retries. lia.
  - destruct (is_request_exception env e); discriminate.
Qed.

(* ------------------------------------------------------------------ *)
(** ** The search gateway and the tool dispatcher *)

(** What [search] answers, read off the provider's outcome. *)
Lemma search_run env query count w :
  search env query count w =
  (Val match search_service env (trace w) query with
       | Response st (Some (JObj data)) =>
           if is_error_status st then []
           else if Py.truthy (field data "Abstract" JNull)
                then [mkWebResult (field data "Heading" (JStr ""))
                                  (field data "AbstractURL" (JStr ""))
                                  (field data "Abstract" (JStr ""))]
                else []
       | _ => []
       end,
   after w [EvSearch query]).
Proof.
  unfold search, try_except, bind, request, raise_for_status, response_json, pylift.
  destruct (search_service env (trace w) query) as [why msg | st b | e];
    [reflexivity | | reflexivity].
  cbn. destruct (is_error_status st); cbn.
  - now destruct b as [[]|].
  - destruct b as [[]|]; try reflexivity. cbn. unfold bind, field.
    destruct (Py.lookup "Abstract" fields) as [a|] eqn:E; cbn; [| reflexivity].
    destruct (Py.truthy a); reflexivity.
Qed.

(** The first pass of the retry loop posts the tool call. *)
Lemma retry_loop_first_post env name params passes retry_count w :
  retry_count < max_retries ->
  exists r rest,
    retry_loop env (S passes) name params retry_count w
    = (r, after w (EvToolCall name params :: rest)).
Proof.
  intros Hlt.
  destruct (caught_by_retry env (tool_service env (trace w) name params)) eqn:Hc.
  - destruct (Z.ltb_spec (retry_count + 1) max_retries) as [Hlt' | Hge].
    + rewrite retry_loop_retries by assumption.
      destruct (retry_loop_frames env passes name params (retry_count + 1)
                  (after w [EvToolCall name params; EvSleep (2 ^ (retry_count + 1))]))
        as (evs & E & _).
      destruct (retry_loop env passes name params (retry_count + 1) _) as [r w2].
      cbn [snd] in E. subst w2.
      exists r, (EvSleep (2 ^ (retry_count + 1)) :: evs). now rewrite after_after.
    + rewrite retry_loop_gives_up by assumption. now eexists _, [].
  - cbn [retry_loop]. apply Z.ltb_lt in Hlt. rewrite Hlt.
    unfold try_except, bind, request, raise_for_status, response_json.
    unfold caught_by_retry in Hc.
    destruct (tool_service env (trace w) name params) as [why msg | st b | e];
      [discriminate | |].
    + apply orb_false_iff in Hc as [Hst Hb]. cbn. rewrite Hst. cbn.
      destruct b as [b|]; cbn.
      * now eexists _, [].
      * unfold is_request_exception. cbn. rewrite Hb. now eexists _, [].
    + rewrite Hc. now eexists _, [].
Qed.

(** C1, as amended.  An empty query (any falsy one) makes
    [handle_claude_tool_call], the handler behind the MCP server, answer
    [{"error": "no query"}] without contacting the search provider or
    anything else.  The client's [_handle_tool_call] does not look at the
    query: whatever the parameters, it starts with a health probe of the
    MCP server and, when the probe succeeds, goes on to post the tool
    call with these parameters; when the probe does not succeed, nothing
    is posted. *)
Theorem C1_empty_query_is_refused_by_the_handler
    env (tool_params q name : json) (w w' : World) :
  Py.get (exn_text env) tool_params "query" (JStr "") = Ok q ->
  Py.truthy q = false ->
  handle_claude_tool_call env tool_params w = (Val (error_dict "no query"), w)
  /\ exists r rest,
       _handle_tool_call env (tool_invocation name tool_params) w'
       = (r, after w' (EvHealth :: rest))
       /\ (probe_returns env (health_service env (trace w')) = Some true ->
           exists rest', rest = EvToolCall name tool_params :: rest')
       /\ (probe_returns env (health_service env (trace w')) <> Some true -> rest = []).
Proof.
  intros Hq Hf. split.
  - unfold handle_claude_tool_call, bind, pylift. rewrite Hq. cbn. now rewrite Hf.
  - unfold _handle_tool_call, tool_invocation. cbn. unfold bind.
    rewrite check_mcp_server_run.
    destruct (health_service env (trace w')) as [why msg | st b0 | e]; cbn.
    + eexists _, []. split; [reflexivity|]. split; [discriminate | reflexivity].
    + destruct (st =? 200); cbn [negb].
      * destruct (retry_loop_first_post env name tool_params 2 0 (after w' [EvHealth]))
          as (r & rest & E); [reflexivity|].
        change (Pos.to_nat 3) with 3%nat. rewrite E.
        exists r, (EvToolCall name tool_params :: rest). rewrite after_after.
        split; [reflexivity|]. split; [now eexists | intros H; now elim H].
      * eexists _, []. split; [reflexivity|]. split; [discriminate | reflexivity].
    + destruct (is_request_exception env e);
        eexists _, []; (split; [reflexivity|]; split; [discriminate | reflexivity]).
Qed.

Lemma C1_empty_query_is_refused_by_the_handler_witness :
  handle_claude_tool_call env_no_query (JObj [("query", JStr "")]) empty_world
  = (Val (error_dict "no query"), empty_world)
  /\ exists r rest,
       _handle_tool_call env_no_query
         (tool_invocation (JStr "fetch_web_content") (JObj [("query", JStr "")])) empty_world
       = (r, after empty_world (EvHealth :: rest))
       /\ (probe_returns env_no_query (health_service env_no_query (trace empty_world))
           = Some true ->
           exists rest',
             rest = EvToolCall (JStr "fetch_web_content") (JObj [("query", JStr "")]) :: rest')
       /\ (probe_returns env_no_query (health_service env_no_query (trace empty_world))
           <> Some true -> rest = []).
Proof.
  apply (C1_empty_query_is_refused_by_the_handler env_no_query
           (JObj [("query", JStr "")]) (JStr "")); reflexivity.
Defined.

(** C1 as stated fails for the dispatcher the orchestrator calls: with an
    empty query [_handle_tool_call] probes the MCP server and posts the
    tool call (two network calls) before [{"error": "no query"}] comes
    back from the server; when the server is down the answer is not
    [{"error": "no query"}] at all. *)
Lemma C1_empty_query_dispatch_uses_network :
  _handle_tool_call env_no_query empty_query_call empty_world
  = (Val (error_dict "no query"),
     mkWorld [EvHealth;
              EvToolCall (JStr "fetch_web_content") (JObj [("query", JStr "")])] [])
  /\ _handle_tool_call env_unreachable empty_query_call empty_world
     = (Val (error_dict "MCP server not available"), mkWorld [EvHealth] []).
Proof. split; reflexivity. Qed.

(** C2.  The MCP server is up and the first two tool-call attempts fail
    in the transport.  If the third attempt succeeds, the dispatcher
    returns its body after exactly three attempts, having slept 2 and
    then 4 seconds between them; if the third fails in the transport too,
    it returns [{"error": "MCP server not responding after retries"}]
    (the spec's "service not responding after retries") after the same
    three attempts. *)
Theorem C2_two_failures_then_third_attempt
    env (name params : json) (w : World) b0 why1 msg1 why2 msg2 :
  let attempt := EvToolCall name params in
  let third := tool_service env
                 (trace w ++ [EvHealth; attempt; EvSleep 2; attempt; EvSleep 4]) name params in
  let events := [EvHealth; attempt; EvSleep 2; attempt; EvSleep 4; attempt] in
  health_service env (trace w) = Response 200 b0 ->
  tool_service env (trace w ++ [EvHealth]) name params = Failed why1 msg1 ->
  tool_service env (trace w ++ [EvHealth; attempt; EvSleep 2]) name params
    = Failed why2 msg2 ->
  (forall st result, third = Response st (Some result) -> is_error_status st = false ->
     _handle_tool_call env (tool_invocation name params) w = (Val result, after w events))
  /\ (forall why3 msg3, third = Failed why3 msg3 ->
        _handle_tool_call env (tool_invocation name params) w
        = (Val (error_dict "MCP server not responding after retries"), after w events)).
Proof.
  cbv zeta. intros Hh H1 H2.
  assert (E : _handle_tool_call env (tool_invocation name params) w
              = retry_loop env 1 name params 2
                  (after w [EvHealth; EvToolCall name params; EvSleep 2;
                            EvToolCall name params; EvSleep 4])).
  { rewrite (handle_tool_call_probe_ok env name params w b0 Hh).
    change (Z.to_nat max_retries) with 3%nat.
    rewrite retry_loop_retries; [| reflexivity | cbn [after trace]; now rewrite H1].
    rewrite after_after. cbn [app].
    change (0 + 1) with 1. change (2 ^ 1) with 2.
    rewrite retry_loop_retries; [| reflexivity | cbn [after trace]; now rewrite H2].
    rewrite after_after. reflexivity. }
  rewrite E. split.
  - intros st result H3 Hst.
    rewrite retry_loop_returns with (st := st) (b := result); try assumption;
      [now rewrite after_after | reflexivity].
  - intros why3 msg3 H3.
    rewrite retry_loop_gives_up;
      [now rewrite after_after | reflexivity | reflexivity |].
    cbn [after trace]. now rewrite H3.
Qed.

Lemma C2_two_failures_then_third_attempt_witness :
  _handle_tool_call (env_flaky 2) eiffel_call empty_world
  = (Val one_result,
     after empty_world
       [EvHealth;
        EvToolCall (JStr "fetch_web_content") (JObj [("query", JStr "Eiffel Tower height")]);
        EvSleep 2;
        EvToolCall (JStr "fetch_web_content") (JObj [("query", JStr "Eiffel Tower height")]);
        EvSleep 4;
        EvToolCall (JStr "fetch_web_content") (JObj [("query", JStr "Eiffel Tower height")])])
  /\ _handle_tool_call (env_flaky 3) eiffel_call empty_world
     = (Val (error_dict "MCP server not responding after retries"),
        after empty_world
          [EvHealth;
           EvToolCall (JStr "fetch_web_content") (JObj [("query", JStr "Eiffel Tower height")]);
           EvSleep 2;
           EvToolCall (JStr "fetch_web_content") (JObj [("query", JStr "Eiffel Tower height")]);
           EvSleep 4;
           EvToolCall (JStr "fetch_web_content") (JObj [("query", JStr "Eiffel Tower height")])]).
Proof.
  split.
  - apply (proj1 (C2_two_failures_then_third_attempt (env_flaky 2)
                    (JStr "fetch_web_content") (JObj [("query", JStr "Eiffel Tower height")])
                    empty_world (Some (JObj [("status", JStr "ok")]))
                    TimedOut "read timed out" TimedOut "read timed out"
                    eq_refl eq_refl eq_refl) 200 one_result); reflexivity.
  - apply (proj2 (C2_two_failures_then_third_attempt (env_flaky 3)
                    (JStr "fetch_web_content") (JObj [("query", JStr "Eiffel Tower height")])
                    empty_world (Some (JObj [("status", JStr "ok")]))
                    TimedOut "read timed out" TimedOut "read timed out"
                    eq_refl eq_refl eq_refl) TimedOut "read timed out"); reflexivity.
Defined.

(** C3, as amended.  A tool-call attempt is retried whenever it ends in
    an exception of the [requests] library: a transport failure (timeout,
    connection error), and also a completed exchange whose status is 4xx
    or 5xx, whatever its body.  With attempts left the dispatcher sleeps
    [2 ^ retry_count] seconds and posts again; on the last attempt it
    gives up.  An attempt answered with a status outside 4xx/5xx and a
    JSON body is never retried, even when the body is an error object:
    the body is returned as it is. *)
Theorem C3_what_the_dispatcher_retries
    env (name params : json) (passes : nat) (retry_count : Z) (w : World) :
  let attempt := EvToolCall name params in
  let answer := tool_service env (trace w) name params in
  retry_count < max_retries ->
  (((exists why msg, answer = Failed why msg)
    \/ (exists st b, answer = Response st b /\ is_error_status st = true)) ->
   retry_loop env (S passes) name params retry_count w
   = if retry_count + 1 <? max_retries
     then retry_loop env passes name params (retry_count + 1)
            (after w [attempt; EvSleep (2 ^ (retry_count + 1))])
     else (Val (error_dict "MCP server not responding after retries"), after w [attempt]))
  /\ (forall st b, answer = Response st (Some b) -> is_error_status st = false ->
        retry_loop env (S passes) name params retry_count w = (Val b, after w [attempt])).
Proof.
  cbv zeta. intros Hlt. split.
  - intros Hfail.
    assert (Hc : caught_by_retry env (tool_service env (trace w) name params) = true).
    { destruct Hfail as [(why & msg & ->) | (st & b & -> & Hst)]; cbn; [reflexivity|].
      now rewrite Hst. }
    destruct (retry_count + 1 <? max_retries) eqn:E.
    + apply retry_loop_retries; [now apply Z.ltb_lt | exact Hc].
    + apply retry_loop_gives_up; [exact Hlt | now apply Z.ltb_ge | exact Hc].
  - intros st b Ho Hst. now apply retry_loop_returns with (st := st).
Qed.

Lemma C3_what_the_dispatcher_retries_witness :
  retry_loop env_500_then_ok 3 (JStr "fetch_web_content") (JObj [("query", JStr "x")]) 0
    empty_world
  = retry_loop env_500_then_ok 2 (JStr "fetch_web_content") (JObj [("query", JStr "x")]) 1
      (after empty_world
         [EvToolCall (JStr "fetch_web_content") (JObj [("query", JStr "x")]); EvSleep 2])
  /\ retry_loop env_200_error 3 (JStr "fetch_web_content") (JObj [("query", JStr "")]) 0
       empty_world
     = (Val (error_dict "no query"),
        after empty_world [EvToolCall (JStr "fetch_web_content") (JObj [("query", JStr "")])]).
Proof.
  split.
  - apply (proj1 (C3_what_the_dispatcher_retries env_500_then_ok
                    (JStr "fetch_web_content") (JObj [("query", JStr "x")]) 2 0 empty_world
                    eq_refl)).
    right. exists 500, (Some (error_dict "internal error")). split; reflexivity.
  - apply (proj2 (C3_what_the_dispatcher_retries env_200_error
                    (JStr "fetch_web_content") (JObj [("query", JStr "")]) 2 0 empty_world
                    eq_refl) 200 (error_dict "no query")); reflexivity.
Defined.

(** C3 as stated fails: the first attempt is a completed HTTP exchange
    with status 500 and the error body [{"error": "internal error"}], and
    the dispatcher sleeps 2 seconds and posts the tool call again. *)
Lemma C3_error_status_is_retried :
  tool_service env_500_then_ok [EvHealth]
    (JStr "fetch_web_content") (JObj [("query", JStr "Eiffel Tower height")])
  = Response 500 (Some (error_dict "internal error"))
  /\ _handle_tool_call env_500_then_ok eiffel_call empty_world
     = (Val one_result,
        mkWorld
          [EvHealth;
           EvToolCall (JStr "fetch_web_content") (JObj [("query", JStr "Eiffel Tower height")]);
           EvSleep 2;
           EvToolCall (JStr "fetch_web_content") (JObj [("query", JStr "Eiffel Tower height")])]
          []).
Proof. split; reflexivity. Qed.

(** C4.  [search] always returns a list to its caller, after one request
    to the provider, and the list has at most one element.  It is empty
    when the request fails, when the status is 4xx/5xx and when the body
    is not a JSON object.  When the provider answers with a JSON object,
    the list holds exactly one result (heading, URL, abstract) if the
    [Abstract] field is non-empty (truthy) and is empty otherwise.  The
    [count] argument changes nothing. *)
Theorem C4_search_returns_at_most_one_result env (query : json) (count : Z) (w : World) :
  let answer := search_service env (trace w) query in
  exists results,
    search env query count w = (Val results, after w [EvSearch query])
    /\ (List.length results <= 1)%nat
    /\ (forall count', search env query count' w = search env query count w)
    /\ ((exists why msg, answer = Failed why msg) -> results = [])
    /\ (forall st b, answer = Response st b -> is_error_status st = true -> results = [])
    /\ (forall st, answer = Response st None -> results = [])
    /\ (forall st b, answer = Response st (Some b) ->
          (forall data, b <> JObj data) -> results = [])
    /\ (forall st data, answer = Response st (Some (JObj data)) ->
          is_error_status st = false ->
          results = if Py.truthy (field data "Abstract" JNull)
                    then [mkWebResult (field data "Heading" (JStr ""))
                                      (field data "AbstractURL" (JStr ""))
                                      (field data "Abstract" (JStr ""))]
                    else []).
Proof.
  cbv zeta. eexists. split; [apply search_run|].
  destruct (search_service env (trace w) query) as [why msg | st [b|] | e].
  - repeat apply conj; cbn; try lia; try discriminate; reflexivity.
  - repeat apply conj.
    + destruct b; cbn; try lia.
      destruct (is_error_status st); cbn; [lia|].
      destruct (Py.truthy _); cbn; lia.
    + intros. now rewrite !search_run.
    + intros (why & msg & H). discriminate.
    + intros st' b' [= <- <-] Hst. destruct b; try reflexivity. now rewrite Hst.
    + discriminate.
    + intros st' b' [= <- <-] Hb. destruct b; try reflexivity. now elim (Hb fields).
    + intros st' data [= <- ->] Hst. now rewrite Hst.
  - repeat apply conj; cbn; try lia; try discriminate; reflexivity.
  - repeat apply conj; cbn; try lia; try discriminate; reflexivity.
Qed.

(** With an abstract the provider yields one result, without it none,
    for any [count]. *)
Lemma C4_search_returns_at_most_one_result_witness :
  search (env_ddg (Response 200 (Some ddg_abstract))) (JStr "Eiffel Tower") 10 empty_world
  = (Val [mkWebResult (JStr "Eiffel Tower")
            (JStr "https://en.wikipedia.org/wiki/Eiffel_Tower")
            (JStr "The Eiffel Tower is a wrought-iron lattice tower.")],
     after empty_world [EvSearch (JStr "Eiffel Tower")]).
Proof.
  destruct (C4_search_returns_at_most_one_result
              (env_ddg (Response 200 (Some ddg_abstract))) (JStr "Eiffel Tower") 10 empty_world)
    as (results & E & _ & _ & _ & _ & _ & _ & H).
  rewrite E.
  rewrite (H 200 [("Abstract", JStr "The Eiffel Tower is a wrought-iron lattice tower.");
                  ("Heading", JStr "Eiffel Tower");
                  ("AbstractURL", JStr "https://en.wikipedia.org/wiki/Eiffel_Tower")]
             eq_refl eq_refl).
  reflexivity.
Defined.

(* ------------------------------------------------------------------ *)
(** ** The trace only grows *)

Lemma frames_grows {A} P (c : M A) : frames P c -> grows c.
Proof.
  intros H w. destruct (H w) as (evs & E & _). exists evs. now rewrite E.
Qed.

Lemma grows_ret {A} (a : A) : grows (ret a).
Proof. intros w. exists []. cbn. now rewrite app_nil_r. Qed.

Lemma grows_raise {A} (e : exn) : grows (@raise A e).
Proof. intros w. exists []. cbn. now rewrite app_nil_r. Qed.

Lemma grows_exhausted {A} : grows (@exhausted A).
Proof. intros w. exists []. cbn. now rewrite app_nil_r. Qed.

Lemma grows_lift {A} (r : res A) : grows (lift r).
Proof. destruct r; [apply grows_ret | apply grows_raise]. Qed.

Lemma grows_get_history : grows get_history.
Proof. intros w. exists []. cbn. now rewrite app_nil_r. Qed.

Lemma grows_set_history h : grows (set_history h).
Proof. intros w. exists []. cbn. now rewrite app_nil_r. Qed.

Lemma grows_request ev oracle : grows (request ev oracle).
Proof. intros w. exists [ev]. unfold request. now destruct (oracle (trace w)). Qed.

Lemma grows_bind {A B} (c : M A) (k : A -> M B) :
  grows c -> (forall a, grows (k a)) -> grows (bind c k).
Proof.
  intros Hc Hk w. unfold bind.
  destruct (Hc w) as (evs & E).
  destruct (c w) as [[a | e |] w1]; cbn in E.
  - destruct (Hk a w1) as (evs' & E').
    exists (evs ++ evs'). now rewrite E', E, app_assoc.
  - now exists evs.
  - now exists evs.
Qed.

Lemma grows_try {A} (body : M A) catches (handler : exn -> M A) :
  grows body -> (forall e, grows (handler e)) -> grows (try_except body catches handler).
Proof.
  intros Hb Hh w. unfold try_except.
  destruct (Hb w) as (evs & E).
  destruct (body w) as [[a | e |] w1]; cbn in E.
  - now exists evs.
  - destruct (catches e).
    + destruct (Hh e w1) as (evs' & E').
      exists (evs ++ evs'). now rewrite E', E, app_assoc.
    + now exists evs.
  - now exists evs.
Qed.

Lemma grows_raise_for_status env r : grows (raise_for_status env r).
Proof. apply (frames_grows (fun _ => True)), frames_raise_for_status. Qed.

Lemma grows_response_json env r : grows (response_json env r).
Proof. apply (frames_grows (fun _ => True)), frames_response_json. Qed.

Lemma grows_pylift env {A} (f : (exn_class -> string) -> res A) : grows (pylift env f).
Proof. apply grows_lift. Qed.

Lemma grows_check_mcp_server env : grows (_check_mcp_server env).
Proof.
  intros w. rewrite check_mcp_server_run. now exists [EvHealth].
Qed.

Lemma grows_retry_loop env passes name params retry_count :
  grows (retry_loop env passes name params retry_count).
Proof. eapply frames_grows, retry_loop_frames. Qed.

Create HintDb grows.
#[local] Hint Resolve grows_ret grows_raise grows_exhausted grows_lift grows_get_history
  grows_set_history grows_request grows_raise_for_status grows_response_json
  grows_pylift grows_check_mcp_server grows_retry_loop : grows.

Ltac grows_tac :=
  repeat first
    [ solve [auto with grows]
    | apply grows_bind; [| intros ?]
    | apply grows_try; [| intros ?]
    | match goal with
      | |- grows (if ?b then _ else _) => destruct b
      | |- grows (match ?x with _ => _ end) => destruct x
      end ].

Lemma grows_handle_tool_call env tool_call : grows (_handle_tool_call env tool_call).
Proof. unfold _handle_tool_call. grows_tac. Qed.

Lemma grows_tool_description env tool_response : grows (tool_description env tool_response).
Proof. unfold tool_description. grows_tac. Qed.

Lemma grows_for_tool_use env on_tool blocks :
  (forall b, grows (on_tool b)) -> grows (for_tool_use env on_tool blocks).
Proof.
  intros H. induction blocks as [| b blocks IH]; cbn [for_tool_use]; grows_tac.
Qed.

#[local] Hint Resolve grows_handle_tool_call grows_tool_description : grows.

Lemma grows_send_message env key depth message history_arg :
  grows (send_message env key depth message history_arg).
Proof.
  revert message history_arg.
  induction depth as [| depth IH]; intros message history_arg; cbn [send_message];
    [apply grows_exhausted|].
  unfold send_message_body. grows_tac.
  apply grows_for_tool_use. intros block. unfold on_tool_use. grows_tac.
Qed.

(* ------------------------------------------------------------------ *)
(** ** The conversation orchestrator *)

Lemma key_present key : key <> "" -> negb (Py.truthy (JStr key)) = false.
Proof.
  intros H. cbn. destruct (String.eqb_spec key ""); [contradiction | reflexivity].
Qed.

Lemma plain_block_is_dict blocks :
  forallb plain_block blocks = true -> forallb is_dict blocks = true.
Proof.
  induction blocks as [| b blocks IH]; cbn; [reflexivity|].
  intros H. apply andb_true_iff in H as [Hb Hbs].
  destruct b; try discriminate. cbn. auto.
Qed.

Section Loops.

Variable env : Env.

Lemma for_tool_use_skips on_tool pre rest w :
  forallb plain_block pre = true ->
  for_tool_use env on_tool (pre ++ rest) w = for_tool_use env on_tool rest w.
Proof.
  induction pre as [| b pre IH]; cbn [app forallb]; [reflexivity|].
  intros H. apply andb_true_iff in H as [Hb Hpre].
  destruct b as [| | | | | d]; try discriminate.
  cbn [for_tool_use]. unfold bind at 1, pylift at 1. cbn [Py.get lift ret].
  cbn in Hb. unfold field in Hb.
  destruct (Py.eq_str _ "tool_use"); [discriminate|].
  now apply IH.
Qed.

Lemma for_tool_use_finds on_tool b post w :
  Py.eq_str (field b "type" JNull) "tool_use" = true ->
  for_tool_use env on_tool (JObj b :: post) w
  = bind (on_tool (JObj b)) (fun r => ret (Some r)) w.
Proof.
  intros H. cbn [for_tool_use]. unfold bind at 1, pylift at 1. cbn [Py.get lift ret].
  unfold field in H. now rewrite H.
Qed.

Lemma for_tool_use_none on_tool blocks w :
  forallb plain_block blocks = true ->
  for_tool_use env on_tool blocks w = (Val None, w).
Proof.
  intros H. rewrite <- (app_nil_r blocks). now rewrite for_tool_use_skips.
Qed.

Lemma for_text_run blocks w :
  forallb is_dict blocks = true ->
  for_text env blocks w = (Val (option_map text_of (find is_text_block blocks)), w).
Proof.
  induction blocks as [| b blocks IH]; cbn [forallb find]; [reflexivity|].
  intros H. apply andb_true_iff in H as [Hb Hbs].
  destruct b as [| | | | | d]; try discriminate.
  cbn [for_text is_text_block]. unfold bind at 1, pylift at 1. cbn [Py.get lift ret].
  unfold field.
  destruct (Py.eq_str _ "text"); [reflexivity | now apply IH].
Qed.

Lemma tool_description_run tool_response descr w :
  described tool_response descr ->
  tool_description env tool_response w = (Val (JStr descr), w).
Proof.
  intros (d & -> & [[Hf ->] | (r & rest & Hr & Hd)]);
    unfold tool_description, bind, pylift; cbn [Py.get lift ret]; fold (field d "results" JNull).
  - now rewrite Hf.
  - rewrite Hr. cbn. fold (field r "description" (JStr "")). now rewrite Hd.
Qed.

(** The dispatcher's own error answers carry no results. *)
Lemma error_dict_described msg : described (error_dict msg) "".
Proof. exists [("error", JStr msg)]. split; [reflexivity|]. left. now split. Qed.

End Loops.

Section SendMessage.

Variable env : Env.
Variable key : string.
Hypothesis key_given : key <> "".

Lemma send_message_never_raises depth message history_arg w e :
  fst (send_message env key depth message history_arg w) <> Raise e.
Proof.
  destruct depth as [| depth]; cbn [send_message]; [discriminate|].
  unfold send_message_body. rewrite key_present by assumption.
  unfold bind at 1. cbn [set_history]. unfold bind at 1. cbn [get_history].
  unfold try_except.
  match goal with |- context [match ?c with _ => _ end] => destruct c as [[r | e' |] w1] end;
    cbn; discriminate.
Qed.

(** An answer without a tool-use block is returned as it is. *)
Lemma send_message_plain depth message history_arg w st d :
  let h := history_of history_arg in
  claude_service env (trace w) (h ++ [user_turn message]) = Response st (Some (JObj d)) ->
  is_error_status st = false ->
  content_is_list d = true ->
  forallb plain_block (blocks_of d) = true ->
  send_message env key (S depth) message history_arg w
  = (Val (JObj d), mkWorld (trace w ++ [EvClaude (h ++ [user_turn message])]) h).
Proof.
  cbv zeta. intros Ho Hst Hc Hp. cbn [send_message].
  unfold send_message_body. rewrite key_present by assumption.
  unfold bind at 1. cbn [set_history]. unfold bind at 1. cbn [get_history].
  fold (history_of history_arg).
  unfold try_except, bind at 1, request. cbn [trace conversation_history].
  rewrite Ho.
  unfold bind at 1. cbn [status_code].
  assert (Hpr : forall w0,
             (if negb (st =? 200)
              then _ <- response_json env (mkResponse st (Some (JObj d))) ;; ret tt
              else ret tt) w0 = (Val tt, w0))
    by (intros w0; now destruct (negb (st =? 200))).
  rewrite Hpr.
  unfold bind at 1, raise_for_status. cbn [status_code]. rewrite Hst. cbn [ret].
  unfold bind at 1, response_json. cbn [body ret].
  unfold bind at 1, pylift at 1. cbn [Py.contains lift ret].
  unfold content_is_list in Hc. unfold blocks_of in Hp.
  destruct (Py.lookup "content" d) as [c|] eqn:E.
  - destruct c; try discriminate.
    unfold bind at 1. unfold bind at 1, pylift at 1. cbn [Py.get lift ret]. rewrite E.
    unfold bind at 1, pylift at 1. cbn [Py.iter lift ret].
    rewrite for_tool_use_none by assumption. reflexivity.
  - reflexivity.
Qed.

(** A failed call to the model comes back as an error dict. *)
Lemma send_message_call_fails depth message history_arg w :
  let h := history_of history_arg in
  let answer := claude_service env (trace w) (h ++ [user_turn message]) in
  (exists why msg, answer = Failed why msg)
  \/ (exists st b, answer = Response st b /\ is_error_status st = true) ->
  exists msg,
    send_message env key (S depth) message history_arg w
    = (Val (error_dict msg), mkWorld (trace w ++ [EvClaude (h ++ [user_turn message])]) h).
Proof.
  cbv zeta. intros Hfail. cbn [send_message].
  unfold send_message_body. rewrite key_present by assumption.
  unfold bind at 1. cbn [set_history]. unfold bind at 1. cbn [get_history].
  fold (history_of history_arg).
  unfold try_except, bind at 1, request. cbn [trace conversation_history].
  destruct Hfail as [(why & msg & ->) | (st & b & -> & Hst)].
  - exists msg. reflexivity.
  - unfold bind at 1. cbn [status_code].
    assert (Hne : negb (st =? 200) = true).
    { destruct (Z.eqb_spec st 200) as [-> |]; [discriminate | reflexivity]. }
    rewrite Hne. destruct b as [b|].
    + exists (http_error_text env st).
      unfold bind at 1. unfold response_json at 1. cbn [body ret].
      unfold bind at 1. unfold bind at 1, raise_for_status. cbn [status_code].
      rewrite Hst. reflexivity.
    + exists (exn_text env JSONDecodeError). reflexivity.
Qed.

(** What [get_final_answer] makes of the dict [send_message] returns. *)
Lemma get_final_answer_reads depth query w d w' :
  send_message env key depth query None w = (Val (JObj d), w') ->
  content_is_list d = true ->
  forallb is_dict (blocks_of d) = true ->
  get_final_answer env key depth query w = (Val (answer_of (blocks_of d)), w').
Proof.
  intros Hs Hc Hd. unfold get_final_answer, try_except, bind at 1. rewrite Hs.
  unfold bind at 1, pylift at 1. cbn [Py.contains lift ret].
  unfold content_is_list in Hc. unfold answer_of. unfold blocks_of in *.
  destruct (Py.lookup "content" d) as [c|] eqn:E.
  - destruct c; try discriminate.
    unfold bind at 1. unfold bind at 1, pylift at 1. cbn [Py.get lift ret]. rewrite E.
    unfold bind at 1, pylift at 1. cbn [Py.iter lift ret].
    rewrite for_text_run by assumption.
    now destruct (find is_text_block items).
  - reflexivity.
Qed.

Lemma get_final_answer_exhausted depth query w w' :
  send_message env key depth query None w = (Exhausted, w') ->
  get_final_answer env key depth query w = (Exhausted, w').
Proof.
  intros Hs. unfold get_final_answer, try_except, bind at 1. now rewrite Hs.
Qed.

Lemma first_block_is_leading pre b post :
  forallb plain_block pre = true ->
  Py.item0 (exn_text env) (JArr (pre ++ JObj b :: post)) = Ok (JObj (leading_block pre b)).
Proof.
  destruct pre as [| x pre]; cbn; [reflexivity|].
  intros H. apply andb_true_iff in H as [Hx _].
  now destruct x.
Qed.

(** The body of the tool-use branch, when nothing in it raises. *)
Lemma on_tool_use_run self message d pre b post query tool_response w1 w2 descr text :
  let h' := conversation_history w1 ++ round_trip_turns message text descr in
  Py.lookup "content" d = Some (JArr (pre ++ JObj b :: post)) ->
  forallb plain_block pre = true ->
  Py.get (exn_text env) (field b "input" (JObj [])) "query" (JObj []) = Ok query ->
  _handle_tool_call env
    (tool_invocation (field b "name" (JStr "")) (JObj [("query", query)])) w1
  = (Val tool_response, w2) ->
  described tool_response descr ->
  field (leading_block pre b) "text" (JStr "") = JStr text ->
  on_tool_use env self message (JObj d) (JObj b) w1
  = self summarize_request (Some h') (mkWorld (trace w2) h').
Proof.
  cbv zeta. intros Hc Hp Hq Hd Hdescr Ht.
  assert (Hh : conversation_history w2 = conversation_history w1).
  { destruct (handle_tool_call_events env (field b "name" (JStr ""))
                (JObj [("query", query)]) w1) as (r & rest & E & _).
    rewrite Hd in E. now inversion E. }
  unfold on_tool_use.
  unfold bind at 1, pylift at 1. cbn [Py.get lift ret]. fold (field b "name" (JStr "")).
  unfold bind at 1, pylift at 1. cbn [Py.get lift ret]. fold (field b "input" (JObj [])).
  unfold bind at 1, pylift at 1. rewrite Hq. cbn [lift ret].
  unfold bind at 1. fold (tool_invocation (field b "name" (JStr "")) (JObj [("query", query)])).
  rewrite Hd.
  unfold bind at 1. rewrite (tool_description_run env tool_response descr w2 Hdescr).
  unfold bind at 1, pylift at 1. cbn [Py.get lift ret]. rewrite Hc.
  unfold bind at 1, pylift at 1. rewrite (first_block_is_leading pre b post Hp).
  cbn [lift ret].
  unfold bind at 1, pylift at 1. cbn [Py.get lift ret].
  fold (field (leading_block pre b) "text" (JStr "")). rewrite Ht.
  unfold bind at 1, pylift at 1. cbn [Py.as_str lift ret].
  unfold bind at 1, pylift at 1. cbn [Py.as_str lift ret].
  unfold bind at 1. cbn [get_history].
  unfold bind at 1. cbn [set_history].
  unfold bind at 1. cbn [get_history trace conversation_history].
  rewrite Hh. reflexivity.
Qed.

(** One tool round trip: the model asks for a tool, the dispatcher
    answers, two turns are appended to the history object and
    [send_message] calls itself on it with the summarization request. *)
Lemma send_message_round_trip depth message history_arg w st d pre b post
    query tool_response w2 descr text :
  let h := history_of history_arg in
  let w1 := mkWorld (trace w ++ [EvClaude (h ++ [user_turn message])]) h in
  let h' := h ++ round_trip_turns message text descr in
  claude_service env (trace w) (h ++ [user_turn message]) = Response st (Some (JObj d)) ->
  is_error_status st = false ->
  Py.lookup "content" d = Some (JArr (pre ++ JObj b :: post)) ->
  forallb plain_block pre = true ->
  Py.eq_str (field b "type" JNull) "tool_use" = true ->
  Py.get (exn_text env) (field b "input" (JObj [])) "query" (JObj []) = Ok query ->
  _handle_tool_call env
    (tool_invocation (field b "name" (JStr "")) (JObj [("query", query)])) w1
  = (Val tool_response, w2) ->
  described tool_response descr ->
  field (leading_block pre b) "text" (JStr "") = JStr text ->
  send_message env key (S depth) message history_arg w
  = send_message env key depth summarize_request (Some h') (mkWorld (trace w2) h').
Proof.
  cbv zeta. intros Ho Hst Hc Hp Hty Hq Hd Hdescr Ht. cbn [send_message].
  unfold send_message_body at 1. rewrite key_present by assumption.
  unfold bind at 1. cbn [set_history]. unfold bind at 1. cbn [get_history].
  fold (history_of history_arg).
  unfold try_except, bind at 1, request. cbn [trace conversation_history].
  rewrite Ho.
  unfold bind at 1. cbn [status_code].
  assert (Hpr : forall w0,
             (if negb (st =? 200)
              then _ <- response_json env (mkResponse st (Some (JObj d))) ;; ret tt
              else ret tt) w0 = (Val tt, w0))
    by (intros w0; now destruct (negb (st =? 200))).
  rewrite Hpr.
  unfold bind at 1, raise_for_status. cbn [status_code]. rewrite Hst. cbn [ret].
  unfold bind at 1, response_json. cbn [body ret].
  unfold bind at 1, pylift at 1. cbn [Py.contains lift ret]. rewrite Hc.
  unfold bind at 1. unfold bind at 1, pylift at 1. cbn [Py.get lift ret]. rewrite Hc.
  unfold bind at 1, pylift at 1. cbn [Py.iter lift ret].
  rewrite for_tool_use_skips by assumption.
  rewrite for_tool_use_finds by assumption.
  unfold bind at 1.
  rewrite (on_tool_use_run (send_message env key depth) message d pre b post query
             tool_response _ w2 descr text Hc Hp Hq Hd Hdescr Ht).
  cbn [conversation_history].
  pose proof (send_message_never_raises depth summarize_request
                (Some (history_of history_arg ++ round_trip_turns message text descr))
                (mkWorld (trace w2)
                   (history_of history_arg ++ round_trip_turns message text descr))) as Hnr.
  destruct (send_message env key depth summarize_request _ _) as [[r | e |] w3];
    [reflexivity | now elim (Hnr e) | reflexivity].
Qed.

End SendMessage.

Lemma request_then_grows {A} ev oracle (k : response -> M A) catches handler w :
  (forall r, grows (k r)) -> (forall e, grows (handler e)) ->
  exists rest,
    trace (snd (try_except (bind (request ev oracle) k) catches handler w))
    = trace w ++ ev :: rest.
Proof.
  intros Hk Hh.
  assert (G : grows (try_except (bind (request ev oracle) k) catches handler)).
  { apply grows_try; [apply grows_bind|]; auto with grows. }
  unfold try_except, bind, request in *.
  destruct (oracle (trace w)) as [why msg | st b | e0].
  - destruct (catches _).
    + destruct (Hh (mkExn (transport_class why) msg)
                  (mkWorld (trace w ++ [ev]) (conversation_history w))) as (evs & E).
      exists evs. rewrite E. cbn. now rewrite <- app_assoc.
    + exists []. reflexivity.
  - destruct (Hk (mkResponse st b) (mkWorld (trace w ++ [ev]) (conversation_history w)))
      as (evs & E).
    destruct (k _ _) as [[a | e |] w1]; cbn in E.
    + exists evs. cbn. rewrite E. now rewrite <- app_assoc.
    + destruct (catches e).
      * destruct (Hh e w1) as (evs' & E').
        exists (evs ++ evs'). rewrite E', E. now rewrite <- !app_assoc.
      * exists evs. cbn. rewrite E. now rewrite <- app_assoc.
    + exists evs. cbn. rewrite E. now rewrite <- app_assoc.
  - destruct (catches e0).
    + destruct (Hh e0 (mkWorld (trace w ++ [ev]) (conversation_history w))) as (evs & E).
      exists evs. rewrite E. cbn. now rewrite <- app_assoc.
    + exists []. reflexivity.
Qed.

(** An activation of [send_message] starts with the request to the
    model: the history followed by the message as a user turn. *)
Lemma send_message_starts env key depth message history_arg w :
  key <> "" ->
  exists rest,
    trace (snd (send_message env key (S depth) message history_arg w))
    = trace w ++ EvClaude (history_of history_arg ++ [user_turn message]) :: rest.
Proof.
  intros Hk. cbn [send_message]. unfold send_message_body.
  rewrite key_present by assumption.
  unfold bind at 1. cbn [set_history]. unfold bind at 1. cbn [get_history].
  fold (history_of history_arg).
  match goal with
  | |- context [try_except (bind (request ?ev ?o) ?k) ?c ?h ?w1] =>
      destruct (request_then_grows ev o k c h w1) as (rest & E)
  end.
  - intros r. grows_tac.
    apply grows_for_tool_use. intros block. unfold on_tool_use. grows_tac.
    apply grows_send_message.
  - intros e. apply grows_ret.
  - exists rest. exact E.
Qed.

(* ------------------------------------------------------------------ *)
(** ** Answers of the orchestrator *)

(** C5.  With an API key, when the model's response to the query has no
    tool-use block (its content is a list of typed blocks, or is
    missing), [get_final_answer] returns the text of the first block of
    type ["text"] as it is, and ["No clear answer found"] (the spec's
    sentinel) when there is no such block.  The only event of the run is
    the one request to the model: the dispatcher is not invoked. *)
Theorem C5_answer_without_tool_use env key depth query w st d :
  key <> "" ->
  claude_service env (trace w) [user_turn query] = Response st (Some (JObj d)) ->
  is_error_status st = false ->
  content_is_list d = true ->
  forallb plain_block (blocks_of d) = true ->
  get_final_answer env key (S depth) query w
  = (Val match find is_text_block (blocks_of d) with
         | Some block => text_of block
         | None => JStr "No clear answer found"
         end,
     mkWorld (trace w ++ [EvClaude [user_turn query]]) []).
Proof.
  intros Hk Ho Hst Hc Hp.
  apply (get_final_answer_reads env key (S depth) query w d); [| assumption |].
  - now apply (send_message_plain env key Hk depth query None w st d).
  - now apply plain_block_is_dict.
Qed.

Lemma C5_answer_without_tool_use_witness :
  get_final_answer env_paris "sk-key" 1 "What is the capital of France?" empty_world
  = (Val (JStr "Paris is the capital of France."),
     mkWorld [EvClaude [user_turn "What is the capital of France?"]] [])
  /\ get_final_answer env_no_text "sk-key" 1 "What is the capital of France?" empty_world
     = (Val (JStr "No clear answer found"),
        mkWorld [EvClaude [user_turn "What is the capital of France?"]] []).
Proof.
  split.
  - apply (C5_answer_without_tool_use env_paris "sk-key" 0 "What is the capital of France?"
             empty_world 200
             [("content", JArr [text_block "Paris is the capital of France."])]);
      [discriminate | reflexivity ..].
  - apply (C5_answer_without_tool_use env_no_text "sk-key" 0 "What is the capital of France?"
             empty_world 200 [("content", JArr [JObj [("type", JStr "image")]])]);
      [discriminate | reflexivity ..].
Defined.

(** C10.  With an API key, when the call to the model fails (an exception
    of the transport, or a 4xx/5xx status), [send_message] returns a dict
    [{"error": msg}], which has no ["content"] key, and
    [get_final_answer] returns ["No clear answer found"]: the same answer,
    after the same single request, as for a successful response that has
    no text block. *)
Theorem C10_failed_model_call_gives_the_sentinel env key depth query w :
  let answer := claude_service env (trace w) [user_turn query] in
  let w' := mkWorld (trace w ++ [EvClaude [user_turn query]]) [] in
  key <> "" ->
  (exists why msg, answer = Failed why msg)
  \/ (exists st b, answer = Response st b /\ is_error_status st = true) ->
  (exists msg,
     send_message env key (S depth) query None w = (Val (JObj [("error", JStr msg)]), w')
     /\ Py.contains (exn_text env) "content" (JObj [("error", JStr msg)]) = Ok false)
  /\ get_final_answer env key (S depth) query w = (Val (JStr "No clear answer found"), w')
  /\ forall env' st d,
       claude_service env' (trace w) [user_turn query] = Response st (Some (JObj d)) ->
       is_error_status st = false ->
       content_is_list d = true ->
       forallb plain_block (blocks_of d) = true ->
       find is_text_block (blocks_of d) = None ->
       get_final_answer env' key (S depth) query w
       = get_final_answer env key (S depth) query w.
Proof.
  cbv zeta. intros Hk Hfail.
  destruct (send_message_call_fails env key Hk depth query None w Hfail) as (msg & Hs).
  cbn [history_of app] in Hs.
  assert (Hg : get_final_answer env key (S depth) query w
               = (Val (JStr "No clear answer found"),
                  mkWorld (trace w ++ [EvClaude [user_turn query]]) [])).
  { now apply (get_final_answer_reads env key (S depth) query w [("error", JStr msg)]). }
  split; [| split].
  - exists msg. now split.
  - exact Hg.
  - intros env' st d Ho Hst Hc Hp Hnone. rewrite Hg.
    rewrite (get_final_answer_reads env' key (S depth) query w d
               (mkWorld (trace w ++ [EvClaude [user_turn query]]) [])).
    + unfold answer_of. now rewrite Hnone.
    + now apply (send_message_plain env' key Hk depth query None w st d).
    + assumption.
    + now apply plain_block_is_dict.
Qed.

Lemma C10_failed_model_call_gives_the_sentinel_witness :
  get_final_answer env_model_down "sk-key" 1 "What is the capital of France?" empty_world
  = (Val (JStr "No clear answer found"),
     mkWorld [EvClaude [user_turn "What is the capital of France?"]] [])
  /\ get_final_answer env_model_overloaded "sk-key" 1 "What is the capital of France?"
       empty_world
     = get_final_answer env_no_text "sk-key" 1 "What is the capital of France?" empty_world.
Proof.
  split.
  - apply (C10_failed_model_call_gives_the_sentinel env_model_down "sk-key" 0
             "What is the capital of France?" empty_world); [discriminate|].
    left. exists TimedOut, "read timed out". reflexivity.
  - symmetry.
    apply (C10_failed_model_call_gives_the_sentinel env_model_overloaded "sk-key" 0
             "What is the capital of France?" empty_world)
      with (st := 200) (d := [("content", JArr [JObj [("type", JStr "image")]])]);
      try reflexivity; [discriminate|].
    right. exists 529, (Some (error_dict "overloaded")). split; reflexivity.
Defined.

(** C7.  With an API key, let the model's response to the query hold a
    tool-use block, [JObj b] being the first one ([pre] are the blocks
    before it, [post] the blocks after it, whatever they are), and let
    the forced follow-up request be answered without tool use, with a
    first text block [summary].  Then [get_final_answer] returns the text
    of [summary], and the run is: the request to the model, one dispatch
    (one health probe, then attempts that all post the name of [b] and
    the query of [b]'s input), the follow-up request to the model.  The
    blocks of [post] cause no event. *)
Theorem C7_first_tool_use_block_is_honored
    env key depth query w st d pre b post q tool_response w2 descr text st2 d2 summary :
  let name := field b "name" (JStr "") in
  let w1 := mkWorld (trace w ++ [EvClaude [user_turn query]]) [] in
  let h' := round_trip_turns query text descr in
  let follow_up := h' ++ [user_turn summarize_request] in
  key <> "" ->
  claude_service env (trace w) [user_turn query] = Response st (Some (JObj d)) ->
  is_error_status st = false ->
  Py.lookup "content" d = Some (JArr (pre ++ JObj b :: post)) ->
  forallb plain_block pre = true ->
  Py.eq_str (field b "type" JNull) "tool_use" = true ->
  Py.get (exn_text env) (field b "input" (JObj [])) "query" (JObj []) = Ok q ->
  _handle_tool_call env (tool_invocation name (JObj [("query", q)])) w1
    = (Val tool_response, w2) ->
  described tool_response descr ->
  field (leading_block pre b) "text" (JStr "") = JStr text ->
  claude_service env (trace w2) follow_up = Response st2 (Some (JObj d2)) ->
  is_error_status st2 = false ->
  content_is_list d2 = true ->
  forallb plain_block (blocks_of d2) = true ->
  find is_text_block (blocks_of d2) = Some summary ->
  get_final_answer env key (S (S depth)) query w
  = (Val (text_of summary), mkWorld (trace w2 ++ [EvClaude follow_up]) h')
  /\ exists attempts,
       trace w2 = trace w ++ [EvClaude [user_turn query]; EvHealth] ++ attempts
       /\ Forall (retry_event name (JObj [("query", q)])) attempts.
Proof.
  cbv zeta. intros Hk Ho Hst Hc Hp Hty Hq Hd Hdescr Ht Ho2 Hst2 Hc2 Hp2 Hsum. split.
  - pose proof (send_message_round_trip env key Hk (S depth) query None w st d pre b post
                  q tool_response w2 descr text Ho Hst Hc Hp Hty Hq Hd Hdescr Ht) as Hr.
    cbn [history_of app] in Hr.
    rewrite (send_message_plain env key Hk depth summarize_request
               (Some (round_trip_turns query text descr))
               (mkWorld (trace w2) (round_trip_turns query text descr)) st2 d2
               Ho2 Hst2 Hc2 Hp2) in Hr.
    cbn [history_of trace] in Hr.
    rewrite (get_final_answer_reads env key (S (S depth)) query w d2 _ Hr Hc2
               (plain_block_is_dict _ Hp2)).
    unfold answer_of. now rewrite Hsum.
  - destruct (handle_tool_call_events env (field b "name" (JStr "")) (JObj [("query", q)])
                (mkWorld (trace w ++ [EvClaude [user_turn query]]) []))
      as (r & attempts & E & F).
    rewrite Hd in E. inversion E. exists attempts. split; [| exact F].
    cbn. now rewrite <- app_assoc.
Qed.

Lemma C7_first_tool_use_block_is_honored_witness :
  get_final_answer env_eiffel "sk-key" 2 "How tall is the Eiffel Tower?" empty_world
  = (Val (JStr "The Eiffel Tower is 330 meters tall."),
     mkWorld
       [EvClaude [user_turn "How tall is the Eiffel Tower?"];
        EvHealth;
        EvToolCall (JStr "fetch_web_content") (JObj [("query", JStr "Eiffel Tower height")]);
        EvClaude (round_trip_turns "How tall is the Eiffel Tower?" "" "330 m"
                  ++ [user_turn summarize_request])]
       (round_trip_turns "How tall is the Eiffel Tower?" "" "330 m")).
Proof.
  apply (C7_first_tool_use_block_is_honored env_eiffel "sk-key" 0
           "How tall is the Eiffel Tower?" empty_world 200
           [("content", JArr [tool_use_block "Eiffel Tower height";
                              tool_use_block "Eiffel Tower weight"])]
           []
           [("type", JStr "tool_use"); ("name", JStr "fetch_web_content");
            ("input", JObj [("query", JStr "Eiffel Tower height")])]
           [tool_use_block "Eiffel Tower weight"]
           (JStr "Eiffel Tower height") one_result
           (mkWorld
              [EvClaude [user_turn "How tall is the Eiffel Tower?"];
               EvHealth;
               EvToolCall (JStr "fetch_web_content")
                 (JObj [("query", JStr "Eiffel Tower height")])] [])
           "330 m" "" 200
           [("content", JArr [text_block "The Eiffel Tower is 330 meters tall."])]
           (text_block "The Eiffel Tower is 330 meters tall."));
    try reflexivity; [discriminate|].
  exists [("results",
           JArr [JObj [("title", JStr "Eiffel Tower");
                       ("url", JStr "https://en.wikipedia.org/wiki/Eiffel_Tower");
                       ("description", JStr "330 m")]])].
  split; [reflexivity|]. right.
  exists [("title", JStr "Eiffel Tower");
          ("url", JStr "https://en.wikipedia.org/wiki/Eiffel_Tower");
          ("description", JStr "330 m")], [].
  split; reflexivity.
Defined.

(* ------------------------------------------------------------------ *)
(** ** The conversation history *)

Lemma alternates_app first l1 l2 :
  alternates first (l1 ++ l2)
  = alternates first l1
    && alternates (if Nat.even (List.length l1) then first else other first) l2.
Proof.
  revert first. induction l1 as [| t l1 IH]; intros first; cbn [app alternates List.length].
  - reflexivity.
  - rewrite IH, <- andb_assoc. f_equal. f_equal.
    rewrite Nat.even_succ, <- Nat.negb_even.
    destruct (Nat.even (List.length l1)); cbn; [reflexivity | now destruct first].
Qed.

Lemma paired_round_trip h message text descr :
  paired h = true -> paired (h ++ round_trip_turns message text descr) = true.
Proof.
  unfold paired. intros H. apply andb_true_iff in H as [Ha He].
  rewrite alternates_app, Ha, He, length_app.
  cbn [round_trip_turns List.length].
  rewrite Nat.even_add, He. reflexivity.
Qed.

Lemma paired_then_user h message :
  paired h = true ->
  alternates User (h ++ [user_turn message]) = true
  /\ Nat.odd (List.length (h ++ [user_turn message])) = true.
Proof.
  unfold paired. intros H. apply andb_true_iff in H as [Ha He].
  rewrite alternates_app, Ha, He, length_app. split; [reflexivity|].
  cbn [List.length]. rewrite Nat.add_1_r, Nat.odd_succ. exact He.
Qed.

(* ------------------------------------------------------------------ *)
(** ** Depth of the recursion *)

Lemma count_app p l1 l2 : count p (l1 ++ l2) = (count p l1 + count p l2)%nat.
Proof. unfold count. now rewrite filter_app, length_app. Qed.

Lemma retry_events_no_probe name params rest :
  Forall (retry_event name params) rest -> count is_health_probe rest = 0%nat.
Proof.
  induction 1 as [| e rest [-> | (s & ->)] _ IH]; [reflexivity | exact IH | exact IH].
Qed.

(** One tool round trip of the body of [send_message], whatever the
    recursive call [self] is: its value is returned, an exception it
    raises is caught with the others. *)
Lemma send_message_body_round_trip env key self message history_arg w st d pre b post
    query tool_response w2 descr text :
  let h := history_of history_arg in
  let w1 := mkWorld (trace w ++ [EvClaude (h ++ [user_turn message])]) h in
  let h' := h ++ round_trip_turns message text descr in
  key <> "" ->
  claude_service env (trace w) (h ++ [user_turn message]) = Response st (Some (JObj d)) ->
  is_error_status st = false ->
  Py.lookup "content" d = Some (JArr (pre ++ JObj b :: post)) ->
  forallb plain_block pre = true ->
  Py.eq_str (field b "type" JNull) "tool_use" = true ->
  Py.get (exn_text env) (field b "input" (JObj [])) "query" (JObj []) = Ok query ->
  _handle_tool_call env
    (tool_invocation (field b "name" (JStr "")) (JObj [("query", query)])) w1
  = (Val tool_response, w2) ->
  described tool_response descr ->
  field (leading_block pre b) "text" (JStr "") = JStr text ->
  send_message_body env key self message history_arg w
  = match self summarize_request (Some h') (mkWorld (trace w2) h') with
    | (Raise e, w3) => (Val (error_dict (exn_msg e)), w3)
    | r => r
    end.
Proof.
  cbv zeta. intros Hk Ho Hst Hc Hp Hty Hq Hd Hdescr Ht.
  unfold send_message_body at 1. rewrite key_present by assumption.
  unfold bind at 1. cbn [set_history]. unfold bind at 1. cbn [get_history].
  fold (history_of history_arg).
  unfold try_except, bind at 1, request. cbn [trace conversation_history].
  rewrite Ho.
  unfold bind at 1. cbn [status_code].
  assert (Hpr : forall w0,
             (if negb (st =? 200)
              then _ <- response_json env (mkResponse st (Some (JObj d))) ;; ret tt
              else ret tt) w0 = (Val tt, w0))
    by (intros w0; now destruct (negb (st =? 200))).
  rewrite Hpr.
  unfold bind at 1, raise_for_status. cbn [status_code]. rewrite Hst. cbn [ret].
  unfold bind at 1, response_json. cbn [body ret].
  unfold bind at 1, pylift at 1. cbn [Py.contains lift ret]. rewrite Hc.
  unfold bind at 1. unfold bind at 1, pylift at 1. cbn [Py.get lift ret]. rewrite Hc.
  unfold bind at 1, pylift at 1. cbn [Py.iter lift ret].
  rewrite for_tool_use_skips by assumption.
  rewrite for_tool_use_finds by assumption.
  unfold bind at 1.
  rewrite (on_tool_use_run env self message d pre b post query
             tool_response _ w2 descr text Hc Hp Hq Hd Hdescr Ht).
  cbn [conversation_history].
  destruct (self summarize_request _ _) as [[r | e |] w3]; reflexivity.
Qed.

(** What [get_final_answer_limited] makes of an error dict. *)
Lemma get_final_answer_limited_of_error env key limit query w msg w' :
  send_message_limited env key limit query None w = (Val (error_dict msg), w') ->
  get_final_answer_limited env key limit query w = (Val (JStr "No clear answer found"), w').
Proof.
  intros Hs. unfold get_final_answer_limited, try_except, bind at 1. now rewrite Hs.
Qed.

Lemma probe_returns_true env o :
  probe_returns env o = Some true -> exists b0, o = Response 200 b0.
Proof.
  destruct o as [why msg | st b0 | e]; cbn; try discriminate.
  - intros [= H]. apply Z.eqb_eq in H. subst. now exists b0.
  - destruct (is_request_exception env e); discriminate.
Qed.

Section KeepsAsking.

Variable env : Env.
Hypothesis server_ok : forall tr name params,
    readable_or_retried env (tool_service env tr name params).
Hypothesis probe_ok : forall tr, escapes env (health_service env tr) = None.

Lemma retry_loop_described name params passes retry_count w :
  max_retries - retry_count <= Z.of_nat passes ->
  exists tool_response w2 descr,
    retry_loop env passes name params retry_count w = (Val tool_response, w2)
    /\ described tool_response descr.
Proof.
  revert retry_count w.
  induction passes as [| passes IH]; intros retry_count w Hle.
  - cbn [retry_loop].
    assert (E : (retry_count <? max_retries) = false) by (apply Z.ltb_ge; lia).
    rewrite E. eexists _, w, "". split; [reflexivity | apply error_dict_described].
  - destruct (Z.ltb_spec retry_count max_retries) as [Hlt | Hge].
    + destruct (server_ok (trace w) name params) as [Hc | (st & body & descr & Ho & Hst & Hd)].
      * destruct (Z.ltb_spec (retry_count + 1) max_retries) as [Hlt' | Hge'].
        -- rewrite retry_loop_retries by assumption. apply IH. lia.
        -- rewrite retry_loop_gives_up by assumption.
           eexists _, _, "". split; [reflexivity | apply error_dict_described].
      * rewrite (retry_loop_returns env name params passes retry_count w st body Hlt Ho Hst).
        now exists body, (after w [EvToolCall name params]), descr.
    + cbn [retry_loop].
      assert (E : (retry_count <? max_retries) = false) by (apply Z.ltb_ge; lia).
      rewrite E. eexists _, w, "". split; [reflexivity | apply error_dict_described].
Qed.

(** Every dispatch returns a response with a readable description,
    after exactly one health probe. *)
Lemma dispatch_described name params w :
  exists tool_response w2 descr,
    _handle_tool_call env (tool_invocation name params) w = (Val tool_response, w2)
    /\ described tool_response descr
    /\ dispatches (trace w2) = S (dispatches (trace w)).
Proof.
  destruct (handle_tool_call_events env name params w) as (r & rest & E & F).
  assert (Hn : dispatches (trace (after w (EvHealth :: rest))) = S (dispatches (trace w))).
  { unfold dispatches. cbn [after trace]. rewrite count_app.
    change (EvHealth :: rest) with ([EvHealth] ++ rest). rewrite count_app.
    rewrite (retry_events_no_probe name params rest F). cbn. lia. }
  assert (D : exists tool_response w2 descr,
             _handle_tool_call env (tool_invocation name params) w = (Val tool_response, w2)
             /\ described tool_response descr).
  { destruct (probe_returns env (health_service env (trace w))) as [[|]|] eqn:Hp.
    - apply probe_returns_true in Hp as (b0 & Hh).
      rewrite (handle_tool_call_probe_ok env name params w b0 Hh).
      apply retry_loop_described. unfold max_retries. lia.
    - rewrite handle_tool_call_probe_fails by assumption.
      eexists _, _, "". split; [reflexivity | apply error_dict_described].
    - exfalso. pose proof (probe_ok (trace w)) as He.
      unfold probe_returns in Hp. unfold escapes in He.
      destruct (health_service env (trace w)) as [? ? | ? ? | e]; try discriminate.
      destruct (is_request_exception env e); discriminate. }
  destruct D as (tool_response & w2 & descr & R & D).
  exists tool_response, w2, descr. split; [exact R|]. split; [exact D|].
  rewrite R in E. injection E as _ Hw. rewrite Hw. exact Hn.
Qed.

Variable key : string.
Hypothesis key_given : key <> "".
Hypothesis model_asks : forall tr messages,
    asks_for_tool env (claude_service env tr messages).

(** With room for [S limit] activations, the model that keeps asking
    for the tool is served [S limit] round trips; the call that does not
    fit raises, the innermost activation catches the exception, and its
    error dict is passed up as the value of every activation. *)
Lemma send_message_limited_hits_the_limit limit message history_arg w :
  exists w',
    send_message_limited env key (S limit) message history_arg w
    = (Val (error_dict (exn_text env RecursionError)), w')
    /\ dispatches (trace w') = (dispatches (trace w) + S limit)%nat.
Proof.
  revert message history_arg w.
  induction limit as [| limit IH]; intros message history_arg w;
    destruct (model_asks (trace w) (history_of history_arg ++ [user_turn message]))
      as (st & d & pre & b & post & q & text & Ho & Hst & Hc & Hp & Hty & Hq & Ht);
    destruct (dispatch_described (field b "name" (JStr "")) (JObj [("query", q)])
                (mkWorld (trace w ++ [EvClaude (history_of history_arg ++ [user_turn message])])
                   (history_of history_arg)))
      as (tool_response & w2 & descr & Hd & Hdescr & Hn);
    cbn [send_message_limited];
    rewrite (send_message_body_round_trip env key _ message history_arg w st d pre
               b post q tool_response w2 descr text key_given Ho Hst Hc Hp Hty Hq Hd Hdescr Ht).
  - eexists. split; [reflexivity|]. cbn [trace]. rewrite Hn.
    unfold dispatches. cbn [trace]. rewrite count_app. cbn. lia.
  - destruct (IH summarize_request
                (Some (history_of history_arg ++ round_trip_turns message text descr))
                (mkWorld (trace w2)
                   (history_of history_arg ++ round_trip_turns message text descr)))
      as (w' & E & Hw').
    change (send_message_body env key (send_message_limited env key limit))
      with (send_message_limited env key (S limit)).
    rewrite E. exists w'. split; [reflexivity|]. rewrite Hw'. cbn [trace]. rewrite Hn.
    unfold dispatches. cbn [trace]. rewrite count_app. cbn. lia.
Qed.

End KeepsAsking.

(** C9, as amended.  [send_message] has no depth cap of its own: the
    number of tool round trips is bounded by the interpreter's recursion
    limit and by nothing else.  With an API key, a model that answers
    every request with a tool-use block, and an MCP server whose answers
    are readable or retried: on a call stack with room for [n]
    activations of [send_message], for every [n >= 1], the run performs
    exactly [n] dispatches; the call that does not fit raises
    [RecursionError], which the [except Exception] of [send_message]
    turns into an error dict, and [get_final_answer] returns
    ["No clear answer found"].  So no number [k] bounds the dispatches
    whatever the recursion limit. *)
Theorem C9_round_trips_bounded_by_the_recursion_limit_only env key query w :
  key <> "" ->
  (forall tr messages, asks_for_tool env (claude_service env tr messages)) ->
  (forall tr name params, readable_or_retried env (tool_service env tr name params)) ->
  (forall tr, escapes env (health_service env tr) = None) ->
  (forall limit,
     fst (get_final_answer_limited env key (S limit) query w)
     = Val (JStr "No clear answer found")
     /\ dispatches (trace (snd (get_final_answer_limited env key (S limit) query w)))
        = (dispatches (trace w) + S limit)%nat)
  /\ forall k, exists limit,
       (k < dispatches (trace (snd (get_final_answer_limited env key (S limit) query w)))
            - dispatches (trace w))%nat.
Proof.
  intros Hk Hmodel Hserver Hprobe.
  assert (H : forall limit,
             fst (get_final_answer_limited env key (S limit) query w)
             = Val (JStr "No clear answer found")
             /\ dispatches (trace (snd (get_final_answer_limited env key (S limit) query w)))
                = (dispatches (trace w) + S limit)%nat).
  { intros limit.
    destruct (send_message_limited_hits_the_limit env Hserver Hprobe key Hk Hmodel limit
                query None w) as (w' & E & Hw').
    rewrite (get_final_answer_limited_of_error env key (S limit) query w _ w' E).
    now split. }
  split; [exact H|].
  intros k. exists k. destruct (H k) as [_ ->]. lia.
Qed.

Lemma C9_round_trips_bounded_by_the_recursion_limit_only_witness :
  fst (get_final_answer_limited env_asks_forever "sk-key" 7 "How tall is the Eiffel Tower?"
         empty_world) = Val (JStr "No clear answer found")
  /\ dispatches
       (trace (snd (get_final_answer_limited env_asks_forever "sk-key" 7
                      "How tall is the Eiffel Tower?" empty_world)))
     = 7%nat.
Proof.
  apply (C9_round_trips_bounded_by_the_recursion_limit_only env_asks_forever "sk-key"
           "How tall is the Eiffel Tower?" empty_world).
  - discriminate.
  - intros tr messages.
    exists 200, [("content", JArr [tool_use_block "Eiffel Tower height"])], [],
      [("type", JStr "tool_use"); ("name", JStr "fetch_web_content");
       ("input", JObj [("query", JStr "Eiffel Tower height")])],
      [], (JStr "Eiffel Tower height"), "".
    repeat split.
  - intros tr name params. right.
    exists 200, one_result, "330 m". repeat split.
    exists [("results",
             JArr [JObj [("title", JStr "Eiffel Tower");
                         ("url", JStr "https://en.wikipedia.org/wiki/Eiffel_Tower");
                         ("description", JStr "330 m")]])].
    split; [reflexivity|]. right.
    exists [("title", JStr "Eiffel Tower");
            ("url", JStr "https://en.wikipedia.org/wiki/Eiffel_Tower");
            ("description", JStr "330 m")], [].
    split; reflexivity.
  - reflexivity.
Defined.

(** C9 as stated fails: the recursion is bounded by the interpreter.
    With room for three activations the model that always asks for the
    tool gets three round trips (three dispatches, three requests), then
    [get_final_answer] returns. *)
Lemma C9_recursion_ends_at_the_limit :
  get_final_answer_limited env_asks_forever "sk-key" 3 "How tall is the Eiffel Tower?"
    empty_world
  = (Val (JStr "No clear answer found"),
     snd (get_final_answer_limited env_asks_forever "sk-key" 3
            "How tall is the Eiffel Tower?" empty_world))
  /\ dispatches
       (trace (snd (get_final_answer_limited env_asks_forever "sk-key" 3
                      "How tall is the Eiffel Tower?" empty_world))) = 3%nat
  /\ count is_claude_request
       (trace (snd (get_final_answer_limited env_asks_forever "sk-key" 3
                      "How tall is the Eiffel Tower?" empty_world))) = 3%nat.
Proof. repeat split; reflexivity. Qed.

(* ------------------------------------------------------------------ *)
(** ** The turns alternate, whatever the collaborators answer *)

Lemma keeps_ret {A} (a : A) (Q : A -> Prop) : Q a -> keeps (ret a) Q.
Proof. intros Hq w Hw. split; [exact Hw|]. now intros a' [= <-]. Qed.

Lemma keeps_raise {A} (e : exn) (Q : A -> Prop) : keeps (raise e) Q.
Proof. intros w Hw. split; [exact Hw | discriminate]. Qed.

Lemma keeps_exhausted {A} (Q : A -> Prop) : keeps exhausted Q.
Proof. intros w Hw. split; [exact Hw | discriminate]. Qed.

Lemma keeps_weaken {A} (c : M A) (Q R : A -> Prop) :
  keeps c Q -> (forall a, Q a -> R a) -> keeps c R.
Proof.
  intros Hc Hqr w Hw. destruct (Hc w Hw) as [H1 H2]. split; [exact H1 | auto].
Qed.

Lemma keeps_bind {A B} (c : M A) (k : A -> M B) (Q : A -> Prop) (R : B -> Prop) :
  keeps c Q -> (forall a, Q a -> keeps (k a) R) -> keeps (bind c k) R.
Proof.
  intros Hc Hk w Hw. unfold bind.
  destruct (Hc w Hw) as [H1 H2].
  destruct (c w) as [[a | e |] w1]; cbn [fst snd] in *.
  - apply (Hk a (H2 a eq_refl) w1 H1).
  - split; [exact H1 | discriminate].
  - split; [exact H1 | discriminate].
Qed.

Lemma keeps_try {A} (body : M A) catches (handler : exn -> M A) (Q : A -> Prop) :
  keeps body Q -> (forall e, keeps (handler e) Q) ->
  keeps (try_except body catches handler) Q.
Proof.
  intros Hb Hh w Hw. unfold try_except.
  destruct (Hb w Hw) as [H1 H2].
  destruct (body w) as [[a | e |] w1]; cbn [fst snd] in *.
  - split; [exact H1 | exact H2].
  - destruct (catches e).
    + apply (Hh e w1 H1).
    + split; [exact H1 | discriminate].
  - split; [exact H1 | discriminate].
Qed.

Lemma keeps_frames {A} (P : Event -> Prop) (c : M A) :
  (forall e, P e -> well_alternated e = true) -> frames P c -> keeps c anything.
Proof.
  intros Hp Hc w [Hh Ht]. destruct (Hc w) as (evs & E & F). rewrite E.
  split; [| intros; exact I]. split; [exact Hh|].
  cbn [after trace]. apply Forall_app. split; [exact Ht|].
  eapply Forall_impl; [| exact F]. exact Hp.
Qed.

Lemma keeps_pylift env {A} (f : (exn_class -> string) -> res A) :
  keeps (pylift env f) anything.
Proof.
  apply (keeps_frames (fun _ => False)); [contradiction|]. apply frames_lift.
Qed.

Lemma keeps_get_history : keeps get_history (fun h => paired h = true).
Proof.
  intros w Hw. split; [exact Hw|]. intros a [= <-]. apply Hw.
Qed.

Lemma keeps_set_history h : paired h = true -> keeps (set_history h) anything.
Proof.
  intros Hp w [_ Ht]. split; [| intros; exact I]. now split.
Qed.

Lemma keeps_request_model messages oracle :
  paired_then_asks messages = true -> keeps (request (EvClaude messages) oracle) anything.
Proof.
  intros Hm w [Hh Ht].
  assert (G : in_order (mkWorld (trace w ++ [EvClaude messages]) (conversation_history w))).
  { split; [exact Hh|]. cbn [trace]. apply Forall_app. split; [exact Ht|].
    constructor; [exact Hm | constructor]. }
  unfold request. destruct (oracle (trace w)); (split; [exact G | intros; exact I]).
Qed.

(** The dispatcher sends nothing to the model and leaves the history
    alone, for any tool call. *)
Lemma handle_tool_call_frames env tool_call :
  frames (fun e => is_claude_request e = false) (_handle_tool_call env tool_call).
Proof.
  unfold _handle_tool_call.
  apply frames_bind; [apply frames_lift | intros tool_name].
  apply frames_bind; [apply frames_lift | intros tool_params].
  apply frames_bind.
  - unfold _check_mcp_server. apply frames_try; [| intros e; apply frames_ret].
    apply frames_bind; [now apply frames_request | intros r; apply frames_ret].
  - intros alive. destruct (negb alive); [apply frames_ret|].
    apply (frames_weaken (retry_event tool_name tool_params)); [| apply retry_loop_frames].
    intros e [-> | (s & ->)]; reflexivity.
Qed.

Lemma keeps_handle_tool_call env tool_call : keeps (_handle_tool_call env tool_call) anything.
Proof.
  apply (keeps_frames (fun e => is_claude_request e = false)); [| apply handle_tool_call_frames].
  intros e He. now destruct e.
Qed.

Lemma keeps_tool_description env tool_response :
  keeps (tool_description env tool_response) anything.
Proof.
  unfold tool_description.
  eapply keeps_bind; [apply keeps_pylift | intros results _].
  destruct (Py.truthy results); [| now apply keeps_ret].
  eapply keeps_bind; [apply keeps_pylift | intros n _].
  destruct (n >? 0); [| now apply keeps_ret].
  eapply keeps_bind; [apply keeps_pylift | intros first _].
  apply keeps_pylift.
Qed.

Lemma keeps_for_tool_use env on_tool blocks :
  (forall b, keeps (on_tool b) anything) ->
  keeps (for_tool_use env on_tool blocks) anything.
Proof.
  intros H. induction blocks as [| b blocks IH]; cbn [for_tool_use].
  - now apply keeps_ret.
  - eapply keeps_bind; [apply keeps_pylift | intros ty _].
    destruct (Py.eq_str ty "tool_use"); [| exact IH].
    eapply keeps_bind; [apply H | intros r _; now apply keeps_ret].
Qed.

Lemma keeps_for_text env blocks : keeps (for_text env blocks) anything.
Proof.
  induction blocks as [| b blocks IH]; cbn [for_text].
  - now apply keeps_ret.
  - eapply keeps_bind; [apply keeps_pylift | intros ty _].
    destruct (Py.eq_str ty "text"); [| exact IH].
    eapply keeps_bind; [apply keeps_pylift | intros r _; now apply keeps_ret].
Qed.

Section Alternation.

Variable env : Env.
Variable key : string.

Lemma keeps_on_tool_use self message result block :
  (forall m h, paired h = true -> keeps (self m (Some h)) anything) ->
  keeps (on_tool_use env self message result block) anything.
Proof.
  intros Hself. unfold on_tool_use.
  eapply keeps_bind; [apply keeps_pylift | intros name _].
  eapply keeps_bind; [apply keeps_pylift | intros input _].
  eapply keeps_bind; [apply keeps_pylift | intros query _].
  eapply keeps_bind; [apply keeps_handle_tool_call | intros tool_response _].
  eapply keeps_bind; [apply keeps_tool_description | intros description _].
  eapply keeps_bind; [apply keeps_pylift | intros content _].
  eapply keeps_bind; [apply keeps_pylift | intros first _].
  eapply keeps_bind; [apply keeps_pylift | intros text _].
  eapply keeps_bind; [apply keeps_pylift | intros text' _].
  eapply keeps_bind; [apply keeps_pylift | intros description' _].
  eapply keeps_bind; [apply keeps_get_history | intros history Hh].
  eapply keeps_bind;
    [apply keeps_set_history; now apply (paired_round_trip history message text' description')
    | intros _ _].
  eapply keeps_bind; [apply keeps_get_history | intros history' Hh'].
  now apply Hself.
Qed.

Lemma keeps_send_message depth message history_arg :
  paired (history_of history_arg) = true ->
  keeps (send_message env key depth message history_arg) anything.
Proof.
  revert message history_arg.
  induction depth as [| depth IH]; intros message history_arg Hp; cbn [send_message].
  - apply keeps_exhausted.
  - unfold send_message_body.
    destruct (negb (Py.truthy (JStr key))); [apply keeps_raise|].
    eapply keeps_bind; [now apply keeps_set_history | intros _ _].
    eapply keeps_bind; [apply keeps_get_history | intros history Hh].
    apply keeps_try; [| intros e; now apply keeps_ret].
    eapply keeps_bind.
    { apply keeps_request_model. unfold paired_then_asks.
      destruct (paired_then_user history message Hh) as [-> ->]. reflexivity. }
    intros response _.
    eapply keeps_bind.
    { instantiate (1 := anything).
      destruct (negb (status_code response =? 200)); [| now apply keeps_ret].
      eapply keeps_bind.
      - apply (keeps_frames (fun _ => False)); [contradiction | apply frames_response_json].
      - intros _ _. now apply keeps_ret. }
    intros _ _.
    eapply keeps_bind.
    { apply (keeps_frames (fun _ => False)); [contradiction | apply frames_raise_for_status]. }
    intros _ _.
    eapply keeps_bind.
    { apply (keeps_frames (fun _ => False)); [contradiction | apply frames_response_json]. }
    intros result _.
    eapply keeps_bind; [apply keeps_pylift | intros has_content _].
    eapply keeps_bind.
    { instantiate (1 := anything).
      destruct has_content; [| now apply keeps_ret].
      eapply keeps_bind; [apply keeps_pylift | intros content _].
      eapply keeps_bind; [apply keeps_pylift | intros blocks _].
      apply keeps_for_tool_use. intros block.
      apply keeps_on_tool_use. intros m h Hh'. now apply IH. }
    intros returned _. destruct returned; now apply keeps_ret.
Qed.

Lemma keeps_get_final_answer depth query :
  keeps (get_final_answer env key depth query) anything.
Proof.
  unfold get_final_answer.
  apply keeps_try; [| intros e; now apply keeps_ret].
  eapply keeps_bind; [now apply keeps_send_message | intros response _].
  eapply keeps_bind; [apply keeps_pylift | intros has_content _].
  eapply keeps_bind.
  { instantiate (1 := anything).
    destruct has_content; [| now apply keeps_ret].
    eapply keeps_bind; [apply keeps_pylift | intros content _].
    eapply keeps_bind; [apply keeps_pylift | intros blocks _].
    apply keeps_for_text. }
  intros found _. destruct found; now apply keeps_ret.
Qed.

End Alternation.

(** C6, as amended.  With an API key, in every tool round trip (the
    model's response holds a tool-use block, the dispatcher returns, the
    description and the text of the first block are strings),
    [send_message] appends to the history object exactly two turns: a
    user turn restating the message of this activation (the query on the
    first round trip, the summarization request on a later one), then an
    assistant turn whose text is the text of the response's first block
    followed by the tool-result sentence and the description.  It then
    calls itself on that history, and the first thing this call does is
    send the summarization request after the extended history.  If the
    history was made of (user, assistant) pairs it still is, and the
    messages of the request alternate, from a user turn to a user turn.
    Hence, whatever the model and the MCP server answer, a run of
    [get_final_answer] started on an empty history ends with a history
    of (user, assistant) pairs, and every request it has sent to the
    model alternates between user and assistant turns. *)
Theorem C6_round_trip_appends_user_then_assistant env key :
  key <> "" ->
  (forall depth message history_arg w st d pre b post q tool_response w2 descr text,
     let h := history_of history_arg in
     let w1 := mkWorld (trace w ++ [EvClaude (h ++ [user_turn message])]) h in
     let h' := h ++ [user_turn message;
                     assistant_turn (text ++ tool_result_intro ++ descr)%string] in
     claude_service env (trace w) (h ++ [user_turn message]) = Response st (Some (JObj d)) ->
     is_error_status st = false ->
     Py.lookup "content" d = Some (JArr (pre ++ JObj b :: post)) ->
     forallb plain_block pre = true ->
     Py.eq_str (field b "type" JNull) "tool_use" = true ->
     Py.get (exn_text env) (field b "input" (JObj [])) "query" (JObj []) = Ok q ->
     _handle_tool_call env
       (tool_invocation (field b "name" (JStr "")) (JObj [("query", q)])) w1
     = (Val tool_response, w2) ->
     described tool_response descr ->
     field (leading_block pre b) "text" (JStr "") = JStr text ->
     send_message env key (S depth) message history_arg w
     = send_message env key depth summarize_request (Some h') (mkWorld (trace w2) h')
     /\ (exists rest,
           trace (snd (send_message env key (S (S depth)) message history_arg w))
           = trace w2 ++ EvClaude (h' ++ [user_turn summarize_request]) :: rest)
     /\ (paired h = true ->
         paired h' = true
         /\ alternates User (h' ++ [user_turn summarize_request]) = true))
  /\ (forall depth query tr,
        Forall (fun e => well_alternated e = true) tr ->
        let w' := snd (get_final_answer env key depth query (mkWorld tr [])) in
        paired (conversation_history w') = true
        /\ Forall (fun e => well_alternated e = true) (trace w')).
Proof.
  intros Hk. split.
  - cbv zeta. intros depth message history_arg w st d pre b post q tool_response w2 descr text
                     Ho Hst Hc Hp Hty Hq Hd Hdescr Ht.
    change [user_turn message; assistant_turn (text ++ tool_result_intro ++ descr)%string]
      with (round_trip_turns message text descr).
    split; [| split].
    + now apply send_message_round_trip with (st := st) (d := d) (pre := pre) (b := b)
                                             (post := post) (query := q)
                                             (tool_response := tool_response).
    + rewrite (send_message_round_trip env key Hk (S depth) message history_arg w st d pre b
                 post q tool_response w2 descr text Ho Hst Hc Hp Hty Hq Hd Hdescr Ht).
      destruct (send_message_starts env key depth summarize_request
                  (Some (history_of history_arg ++ round_trip_turns message text descr))
                  (mkWorld (trace w2)
                     (history_of history_arg ++ round_trip_turns message text descr)) Hk)
        as (rest & E).
      exists rest. exact E.
    + intros Hpair. split.
      * now apply paired_round_trip.
      * now apply paired_then_user, paired_round_trip.
  - cbv zeta. intros depth query tr Htr.
    apply (keeps_get_final_answer env key depth query (mkWorld tr [])).
    now split.
Qed.

Lemma C6_round_trip_appends_user_then_assistant_witness :
  send_message env_eiffel "sk-key" 2 "How tall is the Eiffel Tower?" None empty_world
  = send_message env_eiffel "sk-key" 1 summarize_request
      (Some [user_turn "How tall is the Eiffel Tower?";
             assistant_turn ("" ++ tool_result_intro ++ "330 m")%string])
      (mkWorld
         [EvClaude [user_turn "How tall is the Eiffel Tower?"];
          EvHealth;
          EvToolCall (JStr "fetch_web_content") (JObj [("query", JStr "Eiffel Tower height")])]
         [user_turn "How tall is the Eiffel Tower?";
          assistant_turn ("" ++ tool_result_intro ++ "330 m")%string]).
Proof.
  refine (proj1 (proj1 (C6_round_trip_appends_user_then_assistant env_eiffel "sk-key" _)
           1%nat "How tall is the Eiffel Tower?" None empty_world 200
           [("content", JArr [tool_use_block "Eiffel Tower height";
                              tool_use_block "Eiffel Tower weight"])]
           []
           [("type", JStr "tool_use"); ("name", JStr "fetch_web_content");
            ("input", JObj [("query", JStr "Eiffel Tower height")])]
           [tool_use_block "Eiffel Tower weight"]
           (JStr "Eiffel Tower height") one_result
           (mkWorld
              [EvClaude [user_turn "How tall is the Eiffel Tower?"];
               EvHealth;
               EvToolCall (JStr "fetch_web_content")
                 (JObj [("query", JStr "Eiffel Tower height")])] [])
           "330 m" "" _ _ _ _ _ _ _ _ _));
    try reflexivity; [discriminate|].
  exists [("results",
           JArr [JObj [("title", JStr "Eiffel Tower");
                       ("url", JStr "https://en.wikipedia.org/wiki/Eiffel_Tower");
                       ("description", JStr "330 m")]])].
  split; [reflexivity|]. right.
  exists [("title", JStr "Eiffel Tower");
          ("url", JStr "https://en.wikipedia.org/wiki/Eiffel_Tower");
          ("description", JStr "330 m")], [].
  split; reflexivity.
Defined.

(** C6 as stated fails on a second round trip: the model asks for the
    tool twice, and the user turn appended by the second round trip
    restates the summarization request, not the original query. *)
Lemma C6_second_round_trip_restates_the_summarization_request :
  conversation_history
    (snd (get_final_answer env_asks_twice "sk-key" 3 "How tall is the Eiffel Tower?"
            empty_world))
  = [user_turn "How tall is the Eiffel Tower?";
     assistant_turn ("Let me look." ++ tool_result_intro ++ "330 m")%string;
     user_turn summarize_request;
     assistant_turn ("Let me look." ++ tool_result_intro ++ "330 m")%string]
  /\ user_turn summarize_request <> user_turn "How tall is the Eiffel Tower?"
  /\ fst (get_final_answer env_asks_twice "sk-key" 3 "How tall is the Eiffel Tower?"
            empty_world)
     = Val (JStr "The Eiffel Tower is 330 meters tall.").
Proof. split; [reflexivity | split; [discriminate | reflexivity]]. Qed.

(* ------------------------------------------------------------------ *)
(** ** The front end *)




(** [main], step by step: the credential, the probe made while the
    client is built, then [get_final_answer]. *)
Lemma main_run env environ_key query_args typed depth w :
  let key := match environ_key with Some k => k | None => "" end in
  let query := match query_args with [] => typed | _ => String.concat " " query_args end in
  main env environ_key query_args typed depth w
  = if negb (Py.truthy (JStr key)) then (Val (Exit 1), w)
    else match probe_outcome env (health_service env (trace w)) with
         | Val _ =>
             (match fst (get_final_answer env key depth query (after w [EvHealth])) with
              | Val answer => Val (Answer answer)
              | Raise e => Val (ErrorShown e)
              | Exhausted => Exhausted
              end,
              snd (get_final_answer env key depth query (after w [EvHealth])))
         | Raise e => (Raise e, after w [EvHealth])
         | Exhausted => (Exhausted, after w [EvHealth])
         end.
Proof.
  cbv zeta. unfold main.
  destruct (negb (Py.truthy (JStr match environ_key with Some k => k | None => "" end)));
    [reflexivity|].
  unfold bind at 1, ClaudeClient_init. unfold bind at 1.
  rewrite check_mcp_server_run.
  destruct (probe_outcome env (health_service env (trace w))) as [alive | e |];
    [| reflexivity | reflexivity].
  cbn [ret]. unfold try_except, bind.
  destruct (get_final_answer env _ depth _ (after w [EvHealth])) as [[a | e |] w1];
    reflexivity.
Qed.




(* ------------------------------------------------------------------ *)
(** ** Further properties: the health probe and the dispatcher *)

(** X1.  The health probe of the client ([_check_mcp_server]) and the one
    of the front end ([check_mcp_server]) issue exactly one GET.  They
    answer [True] exactly when the exchange completes with status 200,
    and [False] for any other status and for every exception that is a
    [RequestException].  An exception of another class is not caught:
    it leaves the probe as it was raised. *)
Theorem X1_probe_passes_only_on_200 env w :
  let o := health_service env (trace w) in
  _check_mcp_server env w = (probe_outcome env o, after w [EvHealth])
  /\ check_mcp_server env w = (probe_outcome env o, after w [EvHealth])
  /\ (probe_outcome env o = Val true <-> exists b, o = Response 200 b)
  /\ (forall e,
        probe_outcome env o = Raise e
        <-> o = Raised e /\ is_request_exception env e = false)
  /\ probe_outcome env o <> Exhausted.
Proof.
  cbv zeta. split; [apply check_mcp_server_run|].
  split; [apply check_mcp_server_run|].
  destruct (health_service env (trace w)) as [why msg | st b | e0]; cbn.
  - split; [split | split; [intros e; split |]];
      try solve [discriminate | intros H; discriminate H].
    + intros (b & H). discriminate.
    + intros (H & _). discriminate.
  - split; [split | split; [intros e; split |]];
      try solve [discriminate | intros H; discriminate H].
    + intros [= H]. apply Z.eqb_eq in H. subst. now exists b.
    + intros (b' & [= -> _]). reflexivity.
    + intros (H & _). discriminate.
  - destruct (is_request_exception env e0) eqn:Hr;
      (split; [split | split; [intros e; split |]]);
      try solve [discriminate | intros H; discriminate H].
    + intros (b & H). discriminate.
    + intros ([= ->] & H). congruence.
    + intros (b & H). discriminate.
    + intros [= ->]. now split.
    + intros ([= ->] & _). reflexivity.
Qed.

Lemma handle_tool_call_dict env d w :
  _handle_tool_call env (JObj d) w
  = _handle_tool_call env (tool_invocation (call_name d) (call_parameters d)) w.
Proof. reflexivity. Qed.

(** X2.  When the health probe answers [False], the dispatcher answers
    [{"error": "MCP server not available"}] after the probe alone: the
    tool call is never posted and nothing is retried. *)
Theorem X2_no_tool_call_when_probe_fails env d w :
  probe_returns env (health_service env (trace w)) = Some false ->
  _handle_tool_call env (JObj d) w
  = (Val (error_dict "MCP server not available"), after w [EvHealth]).
Proof.
  intros Hp. rewrite handle_tool_call_dict.
  now apply handle_tool_call_probe_fails.
Qed.

Lemma X2_no_tool_call_when_probe_fails_witness :
  _handle_tool_call env_unreachable eiffel_call empty_world
  = (Val (error_dict "MCP server not available"), after empty_world [EvHealth]).
Proof.
  apply (X2_no_tool_call_when_probe_fails env_unreachable
           [("name", JStr "fetch_web_content");
            ("parameters", JObj [("query", JStr "Eiffel Tower height")])] empty_world).
  reflexivity.
Defined.

(** One pass of the retry loop, in all its outcomes. *)
Lemma retry_pass env name params passes retry_count w :
  retry_count < max_retries ->
  (retry_count + 1 < max_retries
   /\ retry_loop env (S passes) name params retry_count w
      = retry_loop env passes name params (retry_count + 1)
          (after w [EvToolCall name params; EvSleep (2 ^ (retry_count + 1))]))
  \/ (exists r,
        retry_loop env (S passes) name params retry_count w
        = (r, after w [EvToolCall name params])
        /\ loop_result env name params r).
Proof.
  intros Hlt.
  destruct (caught_by_retry env (tool_service env (trace w) name params)) eqn:Hc.
  - destruct (Z.ltb_spec (retry_count + 1) max_retries) as [Hlt' | Hge].
    + left. split; [exact Hlt' | now apply retry_loop_retries].
    + right. eexists. split; [now apply retry_loop_gives_up|].
      right. left. reflexivity.
  - right. unfold caught_by_retry in Hc.
    destruct (tool_service env (trace w) name params) as [why msg | st b | e] eqn:Ho;
      [discriminate | |].
    + apply orb_false_iff in Hc as [Hst Hb].
      destruct b as [b|].
      * exists (Val b). split; [now apply retry_loop_returns with (st := st)|].
        left. now exists (trace w), st, b.
      * exists (Raise (mkExn JSONDecodeError (exn_text env JSONDecodeError))).
        split; [| right; right; left; now split].
        cbn [retry_loop]. apply Z.ltb_lt in Hlt. rewrite Hlt.
        unfold try_except, bind, request, raise_for_status, response_json.
        rewrite Ho. cbn. rewrite Hst. cbn.
        unfold is_request_exception. cbn. now rewrite Hb.
    + exists (Raise e). split.
      * cbn [retry_loop]. apply Z.ltb_lt in Hlt. rewrite Hlt.
        unfold try_except, bind, request. rewrite Ho. now rewrite Hc.
      * right; right; right. exists (trace w), e. split; [| reflexivity].
        rewrite Ho. cbn. now rewrite Hc.
Qed.

(** The whole loop as [_handle_tool_call] starts it. *)
Lemma retry_loop_outcomes env name params w :
  exists r evs,
    retry_loop env (Z.to_nat max_retries) name params 0 w = (r, after w evs)
    /\ In evs (attempt_traces name params)
    /\ evs <> []
    /\ loop_result env name params r.
Proof.
  change (Z.to_nat max_retries) with 3%nat.
  destruct (retry_pass env name params 2 0 w) as [[_ E1] | (r & E & R)]; [reflexivity | |].
  2:{ exists r, [EvToolCall name params]. rewrite E. cbn. intuition discriminate. }
  rewrite E1. change (0 + 1) with 1. change (2 ^ 1) with 2.
  destruct (retry_pass env name params 1 1
              (after w [EvToolCall name params; EvSleep 2]))
    as [[_ E2] | (r & E & R)]; [reflexivity | |].
  2:{ exists r, [EvToolCall name params; EvSleep 2; EvToolCall name params].
      rewrite E, after_after. cbn. intuition discriminate. }
  rewrite E2, after_after. change (1 + 1) with 2. change (2 ^ 2) with 4. cbn [app].
  destruct (retry_pass env name params 0 2
              (after w [EvToolCall name params; EvSleep 2; EvToolCall name params; EvSleep 4]))
    as [[Hlt _] | (r & E & R)]; [reflexivity | discriminate Hlt |].
  exists r, [EvToolCall name params; EvSleep 2; EvToolCall name params; EvSleep 4;
             EvToolCall name params].
  rewrite E, after_after. cbn. intuition discriminate.
Qed.

Lemma dispatch_outcomes env d w :
  let name := call_name d in
  let params := call_parameters d in
  exists r evs,
    _handle_tool_call env (JObj d) w = (r, after w (EvHealth :: evs))
    /\ In evs (attempt_traces name params)
    /\ ((evs = []
         /\ (r = Val (error_dict "MCP server not available")
             \/ exists e, escapes env (health_service env (trace w)) = Some e /\ r = Raise e))
        \/ (evs <> [] /\ loop_result env name params r)).
Proof.
  cbv zeta. rewrite handle_tool_call_dict.
  destruct (probe_returns env (health_service env (trace w))) as [[|]|] eqn:Hp.
  - apply probe_returns_true in Hp as (b0 & Hh).
    rewrite (handle_tool_call_probe_ok env _ _ w b0 Hh).
    destruct (retry_loop_outcomes env (call_name d) (call_parameters d) (after w [EvHealth]))
      as (r & evs & E & Hin & Hne & R).
    exists r, evs. rewrite E, after_after. cbn [app]. auto.
  - exists (Val (error_dict "MCP server not available")), [].
    rewrite handle_tool_call_probe_fails by assumption.
    split; [reflexivity|]. split; [cbn; auto|]. left. split; [reflexivity|]. now left.
  - assert (He : exists e, escapes env (health_service env (trace w)) = Some e).
    { unfold probe_returns in Hp. unfold escapes.
      destruct (health_service env (trace w)) as [? ? | ? ? | e]; try discriminate.
      destruct (is_request_exception env e); [discriminate | now exists e]. }
    destruct He as (e & He).
    exists (Raise e), [].
    rewrite (handle_tool_call_probe_raises env _ _ w e He).
    split; [reflexivity|]. split; [cbn; auto|]. left. split; [reflexivity|]. right.
    now exists e.
Qed.

(** X3.  Whatever the MCP server does, a dispatch is one health probe
    followed by at most three posts of the same tool call; it sleeps only
    between two posts, 2 seconds and then 4, so never more than 6 seconds
    in all and never after the last post. *)
Theorem X3_dispatch_is_bounded env d w :
  exists evs,
    snd (_handle_tool_call env (JObj d) w) = after w (EvHealth :: evs)
    /\ In evs (attempt_traces (call_name d) (call_parameters d))
    /\ (count is_tool_post evs <= 3)%nat
    /\ count is_health_probe evs = 0%nat
    /\ total_sleep evs <= 6.
Proof.
  destruct (dispatch_outcomes env d w) as (r & evs & E & Hin & _).
  exists evs. rewrite E. split; [reflexivity|]. split; [exact Hin|].
  cbn in Hin.
  destruct Hin as [<- | [<- | [<- | [<- | []]]]]; cbn; repeat split; lia.
Qed.

(** X4.  A dispatch always ends.  It returns the not-available answer,
    the give-up answer, or, as it is, the body of a completed exchange
    whose status is not 4xx/5xx.  It raises only when an exception that
    is not a [RequestException] escapes from the probe or from a post,
    or for a body that is not JSON with a [requests] that does not
    report that as a [RequestException]; when none of these can happen
    it always returns a value.  The final
    [{"error": "Unknown error in _handle_tool_call"}] of the source is
    never produced by the dispatcher itself: it can only be a body the
    server sent. *)
Theorem X4_dispatch_results env d w :
  let name := call_name d in
  let params := call_parameters d in
  let r := fst (_handle_tool_call env (JObj d) w) in
  (r = Val (error_dict "MCP server not available")
   \/ (exists e, escapes env (health_service env (trace w)) = Some e /\ r = Raise e)
   \/ loop_result env name params r)
  /\ r <> Exhausted
  /\ (json_error_is_request_exception env = true ->
      (forall tr, escapes env (health_service env tr) = None) ->
      (forall tr, escapes env (tool_service env tr name params) = None) ->
      exists v, r = Val v)
  /\ (r = Val (error_dict "Unknown error in _handle_tool_call") ->
      exists tr st,
        tool_service env tr name params
        = Response st (Some (error_dict "Unknown error in _handle_tool_call"))).
Proof.
  cbv zeta.
  destruct (dispatch_outcomes env d w)
    as (r & evs & E & _ & [[_ [R | (e & He & R)]] | [_ R]]);
    rewrite E; cbn [fst].
  - subst r. repeat split; try (now left); try discriminate. intros _ _ _. now eexists.
  - subst r. repeat split; try discriminate.
    + right. left. now exists e.
    + intros _ Hh _. rewrite Hh in He. discriminate.
  - split; [now right; right|].
    destruct R as [(tr & st & b & Ho & Hst & ->) | [-> | [[Hf ->] | (tr & e & He & ->)]]].
    + repeat split; try discriminate.
      * intros _ _ _. now eexists.
      * intros [= ->]. now exists tr, st.
    + repeat split; try discriminate. intros _ _ _. now eexists.
    + repeat split; try discriminate. intros Ht. rewrite Ht in Hf. discriminate.
    + repeat split; try discriminate. intros _ _ Hh. rewrite Hh in He. discriminate.
Qed.

(* ------------------------------------------------------------------ *)
(** ** Further properties: the handler behind the MCP server *)

Lemma handler_run env d w :
  let query := field d "query" (JStr "") in
  handle_claude_tool_call env (JObj d) w
  = if Py.truthy query
    then (Val (JObj [("results",
                      JArr (map asdict (found (search_service env (trace w) query))))]),
          after w [EvSearch query])
    else (Val (error_dict "no query"), w).
Proof.
  cbv zeta. unfold handle_claude_tool_call, bind at 1, pylift. cbn [Py.get lift ret].
  fold (field d "query" (JStr "")).
  destruct (Py.truthy (field d "query" (JStr ""))); cbn [negb]; [| reflexivity].
  unfold bind. now rewrite search_run.
Qed.

Lemma found_spec o :
  (List.length (found o) <= 1)%nat
  /\ (found o = [] <-> provided_abstract o = None)
  /\ forall abstract, provided_abstract o = Some abstract ->
       exists heading link, found o = [mkWebResult heading link abstract].
Proof.
  unfold found, provided_abstract.
  destruct o as [? ? | st [[]|] | ?]; try (cbn; repeat split; try lia; discriminate).
  destruct (is_error_status st); [cbn; repeat split; try lia; discriminate|].
  destruct (Py.truthy (field fields "Abstract" JNull)); cbn; repeat split;
    try lia; try discriminate.
  intros abstract [= <-]. now eexists _, _.
Qed.

(** X5.  On a dict of parameters [handle_claude_tool_call] never raises.
    A missing or falsy query gives [{"error": "no query"}] and no event.
    Any other query is searched exactly once, and the answer is always
    [{"results": [...]}] with at most one entry: a search that fails (in
    the transport, by its status, or by its body) shows as the empty
    list, never as an error. *)
Theorem X5_handler_answers_results_or_no_query env d w :
  let query := field d "query" (JStr "") in
  let answer := search_service env (trace w) query in
  (Py.truthy query = false ->
   handle_claude_tool_call env (JObj d) w = (Val (error_dict "no query"), w))
  /\ (Py.truthy query = true ->
      exists results,
        handle_claude_tool_call env (JObj d) w
        = (Val (JObj [("results", JArr (map asdict results))]), after w [EvSearch query])
        /\ (List.length results <= 1)%nat
        /\ (results = [] <-> provided_abstract answer = None)).
Proof.
  cbv zeta. rewrite handler_run. split; intros Hq; rewrite Hq; [reflexivity|].
  eexists. split; [reflexivity|].
  destruct (found_spec (search_service env (trace w) (field d "query" (JStr ""))))
    as (H1 & H2 & _).
  now split.
Qed.

Lemma X5_handler_answers_results_or_no_query_witness :
  handle_claude_tool_call (env_ddg (Response 200 (Some ddg_abstract))) (JObj []) empty_world
  = (Val (error_dict "no query"), empty_world)
  /\ handle_claude_tool_call (env_ddg down) (JObj [("query", JStr "Eiffel Tower")]) empty_world
     = (Val (JObj [("results", JArr [])]), after empty_world [EvSearch (JStr "Eiffel Tower")]).
Proof.
  split.
  - apply (proj1 (X5_handler_answers_results_or_no_query
                    (env_ddg (Response 200 (Some ddg_abstract))) [] empty_world)).
    reflexivity.
  - destruct (proj2 (X5_handler_answers_results_or_no_query (env_ddg down)
                       [("query", JStr "Eiffel Tower")] empty_world) eq_refl)
      as (results & E & _ & H).
    rewrite E. now rewrite (proj2 H eq_refl).
Defined.

(** X6.  The handler and the orchestrator fit together: fed the handler's
    answer, [send_message]'s extraction of the description yields the
    provider's abstract when the query was searched and there is one, and
    the empty string when the search gave nothing or the query was
    refused. *)
Theorem X6_description_is_the_abstract env env' d w w' :
  let query := field d "query" (JStr "") in
  let answer := search_service env (trace w) query in
  exists tool_response,
    fst (handle_claude_tool_call env (JObj d) w) = Val tool_response
    /\ tool_description env' tool_response w'
       = (Val match provided_abstract answer with
              | Some abstract => if Py.truthy query then abstract else JStr ""
              | None => JStr ""
              end,
          w').
Proof.
  cbv zeta. rewrite handler_run.
  destruct (Py.truthy (field d "query" (JStr ""))).
  - eexists. split; [reflexivity|].
    destruct (found_spec (search_service env (trace w) (field d "query" (JStr ""))))
      as (_ & H2 & H3).
    destruct (provided_abstract _) as [abstract|].
    + destruct (H3 abstract eq_refl) as (heading & link & ->). reflexivity.
    + now rewrite (proj2 H2 eq_refl).
  - eexists. split; [reflexivity|].
    now destruct (provided_abstract _).
Qed.

(* ------------------------------------------------------------------ *)
(** ** An invariant of the world through [send_message] *)

Section Maintains.

Variable Inv : World -> Prop.
Variable P : Event -> Prop.
Variable G : list json -> Prop.

Hypothesis Inv_after : forall w evs, Inv w -> Forall P evs -> Inv (after w evs).
Hypothesis Inv_set : forall w h, Inv w -> G h -> Inv (mkWorld (trace w) h).
Hypothesis Inv_get : forall w, Inv w -> G (conversation_history w).
Hypothesis G_round_trip : forall h message text descr,
    G h -> G (h ++ round_trip_turns message text descr).
Hypothesis P_model : forall messages, P (EvClaude messages).
Hypothesis P_probe : P EvHealth.
Hypothesis P_post : forall name params, P (EvToolCall name params).
Hypothesis P_sleep : forall seconds, P (EvSleep seconds).

Lemma maintains_ret {A} (a : A) (Q : A -> Prop) : Q a -> maintains Inv (ret a) Q.
Proof. intros Hq w Hw. split; [exact Hw|]. now intros a' [= <-]. Qed.

Lemma maintains_raise {A} (e : exn) (Q : A -> Prop) : maintains Inv (raise e) Q.
Proof. intros w Hw. split; [exact Hw | discriminate]. Qed.

Lemma maintains_exhausted {A} (Q : A -> Prop) : maintains Inv exhausted Q.
Proof. intros w Hw. split; [exact Hw | discriminate]. Qed.

Lemma maintains_bind {A B} (c : M A) (k : A -> M B) (Q : A -> Prop) (R : B -> Prop) :
  maintains Inv c Q -> (forall a, Q a -> maintains Inv (k a) R) -> maintains Inv (bind c k) R.
Proof.
  intros Hc Hk w Hw. unfold bind.
  destruct (Hc w Hw) as [H1 H2].
  destruct (c w) as [[a | e |] w1]; cbn [fst snd] in *.
  - apply (Hk a (H2 a eq_refl) w1 H1).
  - split; [exact H1 | discriminate].
  - split; [exact H1 | discriminate].
Qed.

Lemma maintains_try {A} (body : M A) catches (handler : exn -> M A) (Q : A -> Prop) :
  maintains Inv body Q -> (forall e, maintains Inv (handler e) Q) ->
  maintains Inv (try_except body catches handler) Q.
Proof.
  intros Hb Hh w Hw. unfold try_except.
  destruct (Hb w Hw) as [H1 H2].
  destruct (body w) as [[a | e |] w1]; cbn [fst snd] in *.
  - split; [exact H1 | exact H2].
  - destruct (catches e).
    + apply (Hh e w1 H1).
    + split; [exact H1 | discriminate].
  - split; [exact H1 | discriminate].
Qed.

Lemma maintains_frames {A} (P' : Event -> Prop) (c : M A) :
  (forall e, P' e -> P e) -> frames P' c -> maintains Inv c anything.
Proof.
  intros Hp Hc w Hw. destruct (Hc w) as (evs & E & F). rewrite E.
  split; [| intros; exact I]. apply Inv_after; [exact Hw|].
  eapply Forall_impl; [| exact F]. exact Hp.
Qed.

Lemma maintains_pure {A} (c : M A) : frames (fun _ => False) c -> maintains Inv c anything.
Proof. apply maintains_frames. contradiction. Qed.

Lemma maintains_pylift env {A} (f : (exn_class -> string) -> res A) :
  maintains Inv (pylift env f) anything.
Proof. apply maintains_pure, frames_lift. Qed.

Lemma maintains_get_history : maintains Inv get_history G.
Proof.
  intros w Hw. split; [exact Hw|]. intros a [= <-]. now apply Inv_get.
Qed.

Lemma maintains_set_history h : G h -> maintains Inv (set_history h) anything.
Proof.
  intros Hg w Hw. split; [| intros; exact I]. now apply Inv_set.
Qed.

Lemma maintains_request ev oracle : P ev -> maintains Inv (request ev oracle) anything.
Proof.
  intros Hp. apply (maintains_frames P); [auto|]. now apply frames_request.
Qed.

Lemma maintains_handle_tool_call env tool_call :
  maintains Inv (_handle_tool_call env tool_call) anything.
Proof.
  unfold _handle_tool_call.
  eapply maintains_bind; [apply maintains_pylift | intros tool_name _].
  eapply maintains_bind; [apply maintains_pylift | intros tool_params _].
  apply maintains_bind with (Q := anything).
  - unfold _check_mcp_server.
    apply maintains_try; [| intros e; now apply maintains_ret].
    eapply maintains_bind; [now apply maintains_request | intros r _].
    now apply maintains_ret.
  - intros alive _. destruct (negb alive); [now apply maintains_ret|].
    apply (maintains_frames (retry_event tool_name tool_params)); [| apply retry_loop_frames].
    intros e [-> | (s & ->)]; auto.
Qed.

Lemma maintains_tool_description env tool_response :
  maintains Inv (tool_description env tool_response) anything.
Proof.
  unfold tool_description.
  eapply maintains_bind; [apply maintains_pylift | intros results _].
  destruct (Py.truthy results); [| now apply maintains_ret].
  eapply maintains_bind; [apply maintains_pylift | intros n _].
  destruct (n >? 0); [| now apply maintains_ret].
  eapply maintains_bind; [apply maintains_pylift | intros first _].
  apply maintains_pylift.
Qed.

Lemma maintains_for_tool_use env on_tool blocks :
  (forall b, maintains Inv (on_tool b) anything) ->
  maintains Inv (for_tool_use env on_tool blocks) anything.
Proof.
  intros H. induction blocks as [| b blocks IH]; cbn [for_tool_use].
  - now apply maintains_ret.
  - eapply maintains_bind; [apply maintains_pylift | intros ty _].
    destruct (Py.eq_str ty "tool_use"); [| exact IH].
    eapply maintains_bind; [apply H | intros r _; now apply maintains_ret].
Qed.

Lemma maintains_for_text env blocks : maintains Inv (for_text env blocks) anything.
Proof.
  induction blocks as [| b blocks IH]; cbn [for_text].
  - now apply maintains_ret.
  - eapply maintains_bind; [apply maintains_pylift | intros ty _].
    destruct (Py.eq_str ty "text"); [| exact IH].
    eapply maintains_bind; [apply maintains_pylift | intros r _; now apply maintains_ret].
Qed.

Variable env : Env.
Variable key : string.

Lemma maintains_on_tool_use self message result block :
  (forall m h, G h -> maintains Inv (self m (Some h)) anything) ->
  maintains Inv (on_tool_use env self message result block) anything.
Proof.
  intros Hself. unfold on_tool_use.
  eapply maintains_bind; [apply maintains_pylift | intros name _].
  eapply maintains_bind; [apply maintains_pylift | intros input _].
  eapply maintains_bind; [apply maintains_pylift | intros query _].
  eapply maintains_bind; [apply maintains_handle_tool_call | intros tool_response _].
  eapply maintains_bind; [apply maintains_tool_description | intros description _].
  eapply maintains_bind; [apply maintains_pylift | intros content _].
  eapply maintains_bind; [apply maintains_pylift | intros first _].
  eapply maintains_bind; [apply maintains_pylift | intros text _].
  eapply maintains_bind; [apply maintains_pylift | intros text' _].
  eapply maintains_bind; [apply maintains_pylift | intros description' _].
  eapply maintains_bind; [apply maintains_get_history | intros history Hh].
  eapply maintains_bind;
    [apply maintains_set_history;
     now apply (G_round_trip history message text' description')
    | intros _ _].
  eapply maintains_bind; [apply maintains_get_history | intros history' Hh'].
  now apply Hself.
Qed.

Lemma maintains_send_message depth message history_arg :
  G (history_of history_arg) ->
  maintains Inv (send_message env key depth message history_arg) anything.
Proof.
  revert message history_arg.
  induction depth as [| depth IH]; intros message history_arg Hg; cbn [send_message].
  - apply maintains_exhausted.
  - unfold send_message_body.
    destruct (negb (Py.truthy (JStr key))); [apply maintains_raise|].
    eapply maintains_bind; [now apply maintains_set_history | intros _ _].
    eapply maintains_bind; [apply maintains_get_history | intros history Hh].
    apply maintains_try; [| intros e; now apply maintains_ret].
    eapply maintains_bind; [apply maintains_request, P_model | intros response _].
    eapply maintains_bind.
    { instantiate (1 := anything).
      destruct (negb (status_code response =? 200)); [| now apply maintains_ret].
      eapply maintains_bind; [apply maintains_pure, frames_response_json|].
      intros _ _. now apply maintains_ret. }
    intros _ _.
    eapply maintains_bind; [apply maintains_pure, frames_raise_for_status | intros _ _].
    eapply maintains_bind; [apply maintains_pure, frames_response_json | intros result _].
    eapply maintains_bind; [apply maintains_pylift | intros has_content _].
    eapply maintains_bind.
    { instantiate (1 := anything).
      destruct has_content; [| now apply maintains_ret].
      eapply maintains_bind; [apply maintains_pylift | intros content _].
      eapply maintains_bind; [apply maintains_pylift | intros blocks _].
      apply maintains_for_tool_use. intros block.
      apply maintains_on_tool_use. intros m h Hh'. now apply IH. }
    intros returned _. destruct returned; now apply maintains_ret.
Qed.

Lemma maintains_get_final_answer depth query :
  G [] -> maintains Inv (get_final_answer env key depth query) anything.
Proof.
  intros Hg. unfold get_final_answer.
  apply maintains_try; [| intros e; now apply maintains_ret].
  eapply maintains_bind; [now apply maintains_send_message | intros response _].
  eapply maintains_bind; [apply maintains_pylift | intros has_content _].
  eapply maintains_bind.
  { instantiate (1 := anything).
    destruct has_content; [| now apply maintains_ret].
    eapply maintains_bind; [apply maintains_pylift | intros content _].
    eapply maintains_bind; [apply maintains_pylift | intros blocks _].
    apply maintains_for_text. }
  intros found _. destruct found; now apply maintains_ret.
Qed.

End Maintains.

(* ------------------------------------------------------------------ *)
(** ** Further properties: the orchestrator *)

(** X7.  Without an API key nothing is sent: [send_message] raises
    [ValueError] before touching the history or the network, and
    [get_final_answer] turns that into the text
    ["Error: Claude API key is required"]. *)
Theorem X7_no_key_no_request env depth message history_arg w :
  send_message env "" (S depth) message history_arg w
  = (Raise (mkExn ValueError "Claude API key is required"), w)
  /\ get_final_answer env "" (S depth) message w
     = (Val (JStr "Error: Claude API key is required"), w).
Proof. split; reflexivity. Qed.




Section Rounds.

Variable env : Env.
Variable key : string.
Hypothesis key_given : key <> "".

(** Up to the scan of the content blocks. *)
Lemma send_message_scans depth message history_arg w st d blocks :
  let h := history_of history_arg in
  claude_service env (trace w) (h ++ [user_turn message]) = Response st (Some (JObj d)) ->
  is_error_status st = false ->
  Py.lookup "content" d = Some (JArr blocks) ->
  send_message env key (S depth) message history_arg w
  = try_except
      (returned <- for_tool_use env
                     (on_tool_use env (send_message env key depth) message (JObj d)) blocks ;;
       match returned with
       | Some r => ret r
       | None => ret (JObj d)
       end)
      is_exception
      (fun e => ret (error_dict (exn_msg e)))
      (mkWorld (trace w ++ [EvClaude (h ++ [user_turn message])]) h).
Proof.
  cbv zeta. intros Ho Hst Hc. cbn [send_message].
  unfold send_message_body at 1. rewrite key_present by assumption.
  unfold bind at 1. cbn [set_history]. unfold bind at 1. cbn [get_history].
  fold (history_of history_arg).
  unfold try_except, bind at 1, request. cbn [trace conversation_history].
  rewrite Ho.
  unfold bind at 1. cbn [status_code].
  assert (Hpr : forall w0,
             (if negb (st =? 200)
              then _ <- response_json env (mkResponse st (Some (JObj d))) ;; ret tt
              else ret tt) w0 = (Val tt, w0))
    by (intros w0; now destruct (negb (st =? 200))).
  rewrite Hpr.
  unfold bind at 1, raise_for_status. cbn [status_code]. rewrite Hst. cbn [ret].
  unfold bind at 1, response_json. cbn [body ret].
  unfold bind at 1, pylift at 1. cbn [Py.contains lift ret]. rewrite Hc.
  unfold bind at 1. unfold bind at 1, pylift at 1. cbn [Py.get lift ret]. rewrite Hc.
  unfold bind at 1, pylift at 1. cbn [Py.iter lift ret].
  reflexivity.
Qed.

(** The start of an activation does not depend on what the history
    object held before. *)
Lemma send_message_resets depth message history_arg w :
  send_message env key (S depth) message history_arg w
  = send_message env key (S depth) message history_arg
      (mkWorld (trace w) (history_of history_arg)).
Proof.
  cbn [send_message]. unfold send_message_body. rewrite key_present by assumption.
  unfold bind at 1 3. reflexivity.
Qed.

End Rounds.

(** X9.  An error answer of the dispatcher does not stop the round trip.
    When the tool response is an error dict (server not available,
    retries used up, or an error sent by the server), the description is
    the empty string, the two turns are appended all the same -- the
    assistant turn still saying that the tool call was successful -- and
    the summarization request follows. *)
Theorem X9_failed_dispatch_is_still_summarized
    env key depth message history_arg w st d pre b post q msg w2 text :
  let h := history_of history_arg in
  let w1 := mkWorld (trace w ++ [EvClaude (h ++ [user_turn message])]) h in
  let h' := h ++ [user_turn message;
                  assistant_turn (text ++ tool_result_intro ++ "")%string] in
  key <> "" ->
  claude_service env (trace w) (h ++ [user_turn message]) = Response st (Some (JObj d)) ->
  is_error_status st = false ->
  Py.lookup "content" d = Some (JArr (pre ++ JObj b :: post)) ->
  forallb plain_block pre = true ->
  Py.eq_str (field b "type" JNull) "tool_use" = true ->
  Py.get (exn_text env) (field b "input" (JObj [])) "query" (JObj []) = Ok q ->
  field (leading_block pre b) "text" (JStr "") = JStr text ->
  _handle_tool_call env
    (tool_invocation (field b "name" (JStr "")) (JObj [("query", q)])) w1
  = (Val (error_dict msg), w2) ->
  send_message env key (S depth) message history_arg w
  = send_message env key depth summarize_request (Some h') (mkWorld (trace w2) h').
Proof.
  cbv zeta. intros Hk Ho Hst Hc Hp Hty Hq Ht Hd.
  exact (send_message_round_trip env key Hk depth message history_arg w st d pre b post q
           (error_dict msg) w2 "" text Ho Hst Hc Hp Hty Hq Hd
           (error_dict_described msg) Ht).
Qed.

Lemma X9_failed_dispatch_is_still_summarized_witness :
  send_message env_eiffel_no_server "sk-key" 2 "How tall is the Eiffel Tower?" None empty_world
  = send_message env_eiffel_no_server "sk-key" 1 summarize_request
      (Some [user_turn "How tall is the Eiffel Tower?";
             assistant_turn ("Let me look." ++ tool_result_intro ++ "")%string])
      (mkWorld
         [EvClaude [user_turn "How tall is the Eiffel Tower?"]; EvHealth]
         [user_turn "How tall is the Eiffel Tower?";
          assistant_turn ("Let me look." ++ tool_result_intro ++ "")%string]).
Proof.
  apply (X9_failed_dispatch_is_still_summarized env_eiffel_no_server "sk-key" 1
           "How tall is the Eiffel Tower?" None empty_world 200
           [("content", JArr [text_block "Let me look."; tool_use_block "Eiffel Tower height"])]
           [text_block "Let me look."]
           [("type", JStr "tool_use"); ("name", JStr "fetch_web_content");
            ("input", JObj [("query", JStr "Eiffel Tower height")])]
           [] (JStr "Eiffel Tower height") "MCP server not available"
           (mkWorld [EvClaude [user_turn "How tall is the Eiffel Tower?"]; EvHealth] [])
           "Let me look.");
    try reflexivity.
  discriminate.
Defined.

(** The tool-use branch up to a description that is not a string. *)
Lemma on_tool_use_bad_description env self message d pre b post query dr r rest v w1 w2
    text :
  Py.lookup "content" d = Some (JArr (pre ++ JObj b :: post)) ->
  forallb plain_block pre = true ->
  Py.get (exn_text env) (field b "input" (JObj [])) "query" (JObj []) = Ok query ->
  _handle_tool_call env
    (tool_invocation (field b "name" (JStr "")) (JObj [("query", query)])) w1
  = (Val (JObj dr), w2) ->
  field dr "results" JNull = JArr (JObj r :: rest) ->
  field r "description" (JStr "") = v ->
  (forall s, v <> JStr s) ->
  field (leading_block pre b) "text" (JStr "") = JStr text ->
  on_tool_use env self message (JObj d) (JObj b) w1
  = (Raise (mkExn TypeError (exn_text env TypeError)), w2).
Proof.
  intros Hc Hp Hq Hd Hr Hv Hns Ht.
  unfold on_tool_use.
  unfold bind at 1, pylift at 1. cbn [Py.get lift ret]. fold (field b "name" (JStr "")).
  unfold bind at 1, pylift at 1. cbn [Py.get lift ret]. fold (field b "input" (JObj [])).
  unfold bind at 1, pylift at 1. rewrite Hq. cbn [lift ret].
  unfold bind at 1. fold (tool_invocation (field b "name" (JStr "")) (JObj [("query", query)])).
  rewrite Hd.
  assert (Hdesc : tool_description env (JObj dr) w2 = (Val v, w2)).
  { unfold tool_description, bind, pylift. cbn [Py.get lift ret].
    fold (field dr "results" JNull). rewrite Hr. cbn.
    fold (field r "description" (JStr "")). now rewrite Hv. }
  unfold bind at 1. rewrite Hdesc.
  unfold bind at 1, pylift at 1. cbn [Py.get lift ret]. rewrite Hc.
  unfold bind at 1, pylift at 1. rewrite (first_block_is_leading env pre b post Hp).
  cbn [lift ret].
  unfold bind at 1, pylift at 1. cbn [Py.get lift ret].
  fold (field (leading_block pre b) "text" (JStr "")). rewrite Ht.
  unfold bind at 1, pylift at 1. cbn [Py.as_str lift ret].
  unfold bind at 1, pylift at 1.
  destruct v; try reflexivity. now elim (Hns s).
Qed.

(** X10.  A description that is not a string stops the round trip.  When
    the first result of the tool response carries a description of
    another type, building the assistant turn raises [TypeError]:
    [send_message] returns an error dict, nothing is appended to the
    history and no summarization request is sent. *)
Theorem X10_non_string_description_aborts
    env key depth message history_arg w st d pre b post q dr r rest v w2 text :
  let h := history_of history_arg in
  let w1 := mkWorld (trace w ++ [EvClaude (h ++ [user_turn message])]) h in
  key <> "" ->
  claude_service env (trace w) (h ++ [user_turn message]) = Response st (Some (JObj d)) ->
  is_error_status st = false ->
  Py.lookup "content" d = Some (JArr (pre ++ JObj b :: post)) ->
  forallb plain_block pre = true ->
  Py.eq_str (field b "type" JNull) "tool_use" = true ->
  Py.get (exn_text env) (field b "input" (JObj [])) "query" (JObj []) = Ok q ->
  field (leading_block pre b) "text" (JStr "") = JStr text ->
  _handle_tool_call env
    (tool_invocation (field b "name" (JStr "")) (JObj [("query", q)])) w1
  = (Val (JObj dr), w2) ->
  field dr "results" JNull = JArr (JObj r :: rest) ->
  field r "description" (JStr "") = v ->
  (forall s, v <> JStr s) ->
  send_message env key (S depth) message history_arg w
  = (Val (error_dict (exn_text env TypeError)), w2)
  /\ conversation_history w2 = h.
Proof.
  cbv zeta. intros Hk Ho Hst Hc Hp Hty Hq Ht Hd Hr Hv Hns. split.
  - rewrite (send_message_scans env key Hk depth message history_arg w st d _ Ho Hst Hc).
    unfold try_except, bind at 1.
    rewrite for_tool_use_skips by assumption.
    rewrite for_tool_use_finds by assumption.
    unfold bind at 1.
    rewrite (on_tool_use_bad_description env _ message d pre b post q dr r rest v _ w2 text
               Hc Hp Hq Hd Hr Hv Hns Ht).
    reflexivity.
  - destruct (handle_tool_call_events env (field b "name" (JStr "")) (JObj [("query", q)])
                (mkWorld (trace w ++ [EvClaude (history_of history_arg ++ [user_turn message])])
                   (history_of history_arg))) as (r0 & rest0 & E & _).
    rewrite Hd in E. now inversion E.
Qed.

Lemma X10_non_string_description_aborts_witness :
  send_message env_numeric_description "sk-key" 5 "How tall is the Eiffel Tower?" None
    empty_world
  = (Val (error_dict "TypeError"),
     mkWorld
       [EvClaude [user_turn "How tall is the Eiffel Tower?"];
        EvHealth;
        EvToolCall (JStr "fetch_web_content") (JObj [("query", JStr "Eiffel Tower height")])]
       []).
Proof.
  apply (X10_non_string_description_aborts env_numeric_description "sk-key" 4
           "How tall is the Eiffel Tower?" None empty_world 200
           [("content", JArr [tool_use_block "Eiffel Tower height"])]
           []
           [("type", JStr "tool_use"); ("name", JStr "fetch_web_content");
            ("input", JObj [("query", JStr "Eiffel Tower height")])]
           [] (JStr "Eiffel Tower height")
           [("results", JArr [JObj [("description", JNum 330)]])]
           [("description", JNum 330)] [] (JNum 330)
           (mkWorld
              [EvClaude [user_turn "How tall is the Eiffel Tower?"];
               EvHealth;
               EvToolCall (JStr "fetch_web_content")
                 (JObj [("query", JStr "Eiffel Tower height")])] [])
           "");
    try reflexivity; discriminate.
Defined.

(** X11.  A tool-use block without an input, or whose input has no
    query, is not an error for the orchestrator: the query defaults to
    the empty dict, the dispatcher is invoked with the parameters
    [{"query": {}}], and the round trip completes as usual.  On the other
    side [handle_claude_tool_call] refuses these parameters with
    [{"error": "no query"}], without searching. *)
Theorem X11_missing_input_dispatches_an_empty_query
    env env' key depth message history_arg w st d pre b post tool_response w2 descr text w' :
  let h := history_of history_arg in
  let w1 := mkWorld (trace w ++ [EvClaude (h ++ [user_turn message])]) h in
  let h' := h ++ [user_turn message;
                  assistant_turn (text ++ tool_result_intro ++ descr)%string] in
  key <> "" ->
  claude_service env (trace w) (h ++ [user_turn message]) = Response st (Some (JObj d)) ->
  is_error_status st = false ->
  Py.lookup "content" d = Some (JArr (pre ++ JObj b :: post)) ->
  forallb plain_block pre = true ->
  Py.eq_str (field b "type" JNull) "tool_use" = true ->
  (Py.lookup "input" b = None
   \/ exists input, Py.lookup "input" b = Some (JObj input) /\ Py.lookup "query" input = None) ->
  field (leading_block pre b) "text" (JStr "") = JStr text ->
  _handle_tool_call env
    (tool_invocation (field b "name" (JStr "")) (JObj [("query", JObj [])])) w1
  = (Val tool_response, w2) ->
  described tool_response descr ->
  send_message env key (S depth) message history_arg w
  = send_message env key depth summarize_request (Some h') (mkWorld (trace w2) h')
  /\ handle_claude_tool_call env' (JObj [("query", JObj [])]) w'
     = (Val (error_dict "no query"), w').
Proof.
  cbv zeta. intros Hk Ho Hst Hc Hp Hty Hin Ht Hd Hdescr. split; [| reflexivity].
  assert (Hq : Py.get (exn_text env) (field b "input" (JObj [])) "query" (JObj [])
               = Ok (JObj [])).
  { unfold field. destruct Hin as [-> | (input & -> & Hn)]; cbn; [reflexivity|].
    now rewrite Hn. }
  exact (send_message_round_trip env key Hk depth message history_arg w st d pre b post
           (JObj []) tool_response w2 descr text Ho Hst Hc Hp Hty Hq Hd Hdescr Ht).
Qed.

Lemma X11_missing_input_dispatches_an_empty_query_witness :
  send_message env_no_input "sk-key" 2 "Look it up" None empty_world
  = send_message env_no_input "sk-key" 1 summarize_request
      (Some [user_turn "Look it up"; assistant_turn ("" ++ tool_result_intro ++ "")%string])
      (mkWorld
         [EvClaude [user_turn "Look it up"];
          EvHealth;
          EvToolCall (JStr "fetch_web_content") (JObj [("query", JObj [])])]
         [user_turn "Look it up"; assistant_turn ("" ++ tool_result_intro ++ "")%string]).
Proof.
  apply (X11_missing_input_dispatches_an_empty_query env_no_input env_no_input "sk-key" 1
           "Look it up" None empty_world 200
           [("content", JArr [JObj [("type", JStr "tool_use");
                                    ("name", JStr "fetch_web_content")]])]
           []
           [("type", JStr "tool_use"); ("name", JStr "fetch_web_content")]
           [] (error_dict "no query")
           (mkWorld
              [EvClaude [user_turn "Look it up"];
               EvHealth;
               EvToolCall (JStr "fetch_web_content") (JObj [("query", JObj [])])] [])
           "" "" empty_world);
    try reflexivity.
  - discriminate.
  - now left.
  - apply error_dict_described.
Defined.

(** X12.  A content block that is not a dict, met before any tool-use
    block, ends the activation: reading its type raises
    [AttributeError], [send_message] returns an error dict after the one
    request to the model, and no block after it is looked at, so no tool
    is dispatched.  [get_final_answer] then returns
    ["No clear answer found"]. *)
Theorem X12_block_that_is_no_dict_is_an_error
    env key depth message history_arg w st d pre x post :
  let h := history_of history_arg in
  let w1 := mkWorld (trace w ++ [EvClaude (h ++ [user_turn message])]) h in
  key <> "" ->
  claude_service env (trace w) (h ++ [user_turn message]) = Response st (Some (JObj d)) ->
  is_error_status st = false ->
  Py.lookup "content" d = Some (JArr (pre ++ x :: post)) ->
  forallb plain_block pre = true ->
  is_dict x = false ->
  send_message env key (S depth) message history_arg w
  = (Val (error_dict (exn_text env AttributeError)), w1)
  /\ (history_arg = None ->
      get_final_answer env key (S depth) message w
      = (Val (JStr "No clear answer found"), w1)).
Proof.
  cbv zeta. intros Hk Ho Hst Hc Hp Hx.
  assert (E : send_message env key (S depth) message history_arg w
              = (Val (error_dict (exn_text env AttributeError)),
                 mkWorld (trace w ++ [EvClaude (history_of history_arg ++ [user_turn message])])
                   (history_of history_arg))).
  { rewrite (send_message_scans env key Hk depth message history_arg w st d _ Ho Hst Hc).
    unfold try_except, bind at 1.
    rewrite for_tool_use_skips by assumption.
    cbn [for_tool_use]. unfold bind at 1, pylift at 1.
    destruct x; try discriminate; reflexivity. }
  split; [exact E|].
  intros ->.
  now apply (get_final_answer_reads env key (S depth) message w
               [("error", JStr (exn_text env AttributeError))]).
Qed.

Lemma X12_block_that_is_no_dict_is_an_error_witness :
  get_final_answer env_string_block "sk-key" 3 "capital of France" empty_world
  = (Val (JStr "No clear answer found"),
     mkWorld [EvClaude [user_turn "capital of France"]] []).
Proof.
  apply (proj2 (X12_block_that_is_no_dict_is_an_error env_string_block "sk-key" 2
                  "capital of France" None empty_world 200
                  [("content", JArr [JStr "Paris"; tool_use_block "capital of France"])]
                  [] (JStr "Paris") [tool_use_block "capital of France"]
                  ltac:(discriminate) eq_refl eq_refl eq_refl eq_refl eq_refl)).
  reflexivity.
Defined.

(** X13.  [send_message] only ever extends the history list it is given:
    with an API key, after any activation the list holds the turns it
    held at the call, unchanged and in place, followed by whole
    (user, assistant) pairs -- whatever the model and the MCP server
    answer, also when the activation ends in an error dict. *)
Theorem X13_history_is_only_extended env key depth message h w :
  key <> "" ->
  exists added,
    conversation_history (snd (send_message env key (S depth) message (Some h) w))
    = h ++ added
    /\ paired added = true.
Proof.
  intros Hk. rewrite (send_message_resets env key Hk).
  cbn [history_of].
  assert (Hh : extends h h) by (exists []; split; [now rewrite app_nil_r | reflexivity]).
  refine (proj1 (maintains_send_message
                   (fun w0 => extends h (conversation_history w0)) (fun _ => True)
                   (extends h) _ _ _ _ _ _ _ _ env key (S depth) message (Some h) Hh
                   (mkWorld (trace w) h) Hh)).
  - intros w0 evs H _. exact H.
  - intros w0 h0 _ H. exact H.
  - intros w0 H. exact H.
  - intros h0 m t dsc (added & -> & Hp). exists (added ++ round_trip_turns m t dsc).
    split; [now rewrite app_assoc | now apply paired_round_trip].
  - intros; exact I.
  - exact I.
  - intros; exact I.
  - intros; exact I.
Qed.

Lemma X13_history_is_only_extended_witness :
  exists added,
    conversation_history
      (snd (send_message env_eiffel "sk-key" 2 "And how heavy?"
              (Some [user_turn "Hello"; assistant_turn "Hi."]) empty_world))
    = [user_turn "Hello"; assistant_turn "Hi."] ++ added
    /\ paired added = true.
Proof.
  apply (X13_history_is_only_extended env_eiffel "sk-key" 1 "And how heavy?"
           [user_turn "Hello"; assistant_turn "Hi."] empty_world).
  discriminate.
Defined.

(** X14.  The client never contacts the search provider.  Every event of
    a run of [main] is a health probe, a request to the model, a post of
    a tool call or a sleep: searching is left to the MCP server. *)
Theorem X14_client_never_searches env environ_key query_args typed depth w :
  Forall client_event (trace w) ->
  Forall client_event (trace (snd (main env environ_key query_args typed depth w))).
Proof.
  intros Hw. rewrite main_run.
  destruct (negb (Py.truthy (JStr match environ_key with Some k => k | None => "" end)));
    [exact Hw|].
  assert (Hp : Forall client_event (trace (after w [EvHealth]))).
  { cbn [after trace]. apply Forall_app. split; [exact Hw|]. repeat constructor. }
  destruct (probe_outcome env (health_service env (trace w))) as [alive | e |];
    [| exact Hp | exact Hp].
  cbn [snd].
  refine (proj1 (maintains_get_final_answer
                   (fun w0 => Forall client_event (trace w0)) client_event
                   (fun _ => True) _ _ _ _ _ _ _ _ env _ depth _ I
                   (after w [EvHealth]) _)).
  - intros w0 evs H F. cbn [after trace]. apply Forall_app. now split.
  - intros w0 h0 H _. exact H.
  - intros; exact I.
  - intros; exact I.
  - intros; exact I.
  - exact I.
  - intros; exact I.
  - intros; exact I.
  - cbn [after trace]. apply Forall_app. split; [exact Hw|]. repeat constructor.
Qed.

Lemma X14_client_never_searches_witness :
  Forall client_event
    (trace (snd (main env_eiffel (Some "sk-key") ["How"; "tall"] "" 3 empty_world))).
Proof.
  apply (X14_client_never_searches env_eiffel (Some "sk-key") ["How"; "tall"] "" 3 empty_world).
  constructor.
Defined.

(* ------------------------------------------------------------------ *)
(** ** Further properties: the query extractor *)

Lemma extract_run lib env user_message w :
  _extract_with_claude lib env user_message w
  = (Val match messages_create lib (trace w) user_message with
         | SdkMessage (SdkText content :: _) =>
             match json_loads lib (json_text lib content) with
             | None => JStr "error"
             | Some (JObj d) => field d "queries" (JArr [])
             | Some _ => JArr []
             end
         | _ => JArr []
         end,
     after w [EvClaude [user_turn user_message]]).
Proof.
  unfold _extract_with_claude, try_except, bind at 1, sdk_create.
  destruct (messages_create lib (trace w) user_message) as [e | [| [content |] rest]];
    try reflexivity.
  unfold bind at 1. cbn [ret]. unfold bind at 1. cbn [ret]. fold (json_text lib content).
  destruct (json_loads lib (json_text lib content)) as [[]|]; reflexivity.
Qed.

(** X15.  [_extract_with_claude] never raises and sends exactly one
    request.  It answers the empty list whenever something goes wrong
    around the decoding: the SDK raises, the message has no content
    block, its first block has no text, or the decoded JSON is not an
    object. *)
Theorem X15_extractor_never_raises lib env user_message w :
  let reply := messages_create lib (trace w) user_message in
  exists queries,
    _extract_with_claude lib env user_message w
    = (Val queries, after w [EvClaude [user_turn user_message]])
    /\ ((exists e, reply = SdkRaises e) -> queries = JArr [])
    /\ (reply = SdkMessage [] -> queries = JArr [])
    /\ (forall rest, reply = SdkMessage (SdkOther :: rest) -> queries = JArr [])
    /\ (forall content rest v,
          reply = SdkMessage (SdkText content :: rest) ->
          json_loads lib (json_text lib content) = Some v ->
          is_dict v = false -> queries = JArr []).
Proof.
  cbv zeta. eexists. split; [apply extract_run|].
  destruct (messages_create lib (trace w) user_message) as [e | [| [content |] rest]];
    repeat apply conj; try reflexivity; try discriminate.
  - intros (e & H). discriminate.
  - intros content' rest' v [= -> _] Hl Hd. rewrite Hl. now destruct v.
Qed.

Lemma X15_extractor_never_raises_witness :
  _extract_with_claude lib_sdk_down env_paris "How tall is the Eiffel Tower?" empty_world
  = (Val (JArr []), after empty_world [EvClaude [user_turn "How tall is the Eiffel Tower?"]]).
Proof.
  destruct (X15_extractor_never_raises lib_sdk_down env_paris
              "How tall is the Eiffel Tower?" empty_world) as (queries & E & H & _).
  rewrite E. rewrite H; [reflexivity|].
  now exists (mkExn ConnectionError "connection refused").
Defined.

(** X16.  When the first block of the reply is a text, the extractor
    decodes the fenced JSON object if the text holds one and the stripped
    text otherwise.  If that does not decode it returns the string
    ["error"] -- a string, not a list: a caller looping over the result
    gets five one-letter queries.  If it decodes to an object, the value
    under ["queries"] is returned as it is, and the empty list when the
    key is missing.  For a provider other than ["claude"],
    [extract_website_queries_with_llm] answers [["error"]] without any
    request. *)
Theorem X16_extractor_results lib env user_message w content rest :
  messages_create lib (trace w) user_message = SdkMessage (SdkText content :: rest) ->
  (json_loads lib (json_text lib content) = None ->
   fst (_extract_with_claude lib env user_message w) = Val (JStr "error")
   /\ Py.iter (exn_text env) (JStr "error")
      = Ok [JStr "e"; JStr "r"; JStr "r"; JStr "o"; JStr "r"])
  /\ (forall d,
        json_loads lib (json_text lib content) = Some (JObj d) ->
        fst (_extract_with_claude lib env user_message w) = Val (field d "queries" (JArr [])))
  /\ (forall provider,
        provider <> "claude" ->
        extract_website_queries_with_llm lib env provider user_message w
        = (Val (JArr [JStr "error"]), w))
  /\ extract_website_queries_with_llm lib env "claude" user_message w
     = _extract_with_claude lib env user_message w.
Proof.
  intros Hr. rewrite extract_run, Hr. cbn [fst]. repeat apply conj.
  - intros ->. now split.
  - intros d ->. reflexivity.
  - intros provider Hp. unfold extract_website_queries_with_llm.
    destruct (String.eqb_spec provider "claude"); [contradiction | reflexivity].
  - change (extract_website_queries_with_llm lib env "claude" user_message w)
      with (_extract_with_claude lib env user_message w).
    now rewrite extract_run, Hr.
Qed.

Lemma X16_extractor_results_witness :
  fst (_extract_with_claude (lib_undecodable "I found no query.") env_paris
         "How tall is the Eiffel Tower?" empty_world)
  = Val (JStr "error")
  /\ fst (_extract_with_claude (lib_one_query "{...}") env_paris
            "How tall is the Eiffel Tower?" empty_world)
     = Val (JArr [JStr "Eiffel Tower height"]).
Proof.
  split.
  - apply (proj1 (X16_extractor_results (lib_undecodable "I found no query.") env_paris
                    "How tall is the Eiffel Tower?" empty_world "I found no query." []
                    eq_refl)).
    reflexivity.
  - apply (proj1 (proj2 (X16_extractor_results (lib_one_query "{...}") env_paris
                           "How tall is the Eiffel Tower?" empty_world "{...}" []
                           eq_refl))
             [("queries", JArr [JStr "Eiffel Tower height"])]).
    reflexivity.
Defined.
